(** * Kazagumo: the track entity and the per-guild player state machine

    A shallow embedding of [KazagumoTrack] (deferred resolution with fallback
    search) and [KazagumoPlayer] (queue advance, loop policy, life cycle),
    followed by the properties stated about them.

    Conventions of the embedding.
    - A JavaScript object that is shared and mutated in place (a
      [KazagumoTrack]) lives in an object store and is named by a reference;
      the queue, [current], [previous] and the emitted events hold references.
    - A method is a function of the world it runs in; it returns a completion
      (a value or a thrown error) together with the world it leaves behind.
      A throw does not roll anything back.
    - Everything a method asks of a collaborator (event bus, worker connection,
      voice gateway, REST search) is appended to one trace, in program order.
    - [await] is sequential composition: a call that is awaited, or whose
      promise is dropped, is run to completion at the point of the call. *)

From Stdlib Require Import ZArith Ascii String List Bool Lia.
From stdpp Require Import base functions gmap strings list.

Local Open Scope string_scope.
Local Open Scope Z_scope.
Local Open Scope list_scope.

(** ** JavaScript values that appear at the API boundary *)

(** An argument as a caller may pass it, whatever the declared type says. *)
Inductive JsValue :=
| JsUndefined
| JsBool (b : bool)
| JsString (s : string)
| JsNumber (n : Z)
| JsNaN.

(** [!!x] for a string that may be [undefined]/[null]. *)
Definition truthy_string (x : option string) : bool :=
  match x with
  | Some s => negb (String.eqb s "")
  | None => false
  end.

(** [!!x] for a number that may be [undefined]. *)
Definition truthy_number (x : option Z) : bool :=
  match x with
  | Some n => negb (n =? 0)
  | None => false
  end.

(** ** Errors *)

(** What a [throw] or a rejected promise carries.  The library throws
    [KazagumoError] and [Error] objects; the user's resolver hook and the
    node's REST client may reject with anything: an error object, [null],
    [undefined] or another primitive ([Thrown]). *)
Inductive Exn :=
| KazagumoError (code : Z) (message : string)
| Error (message : string)
| TypeError (message : string)
| ThrownNull
| Thrown (v : JsValue).

Inductive Completion (A : Type) :=
| Return (a : A)
| Throw (e : Exn).
Arguments Return {A} a.
Arguments Throw {A} e.

(** [e.message].  An error object has a message; a boolean, a string or a
    number has no such property and the read gives [undefined] ([None]);
    [undefined] and [null] have no properties at all and the read itself
    throws a [TypeError] (the message text is V8's). *)
Definition message (e : Exn) : Completion (option string) :=
  match e with
  | KazagumoError _ m => Return (Some m)
  | Error m => Return (Some m)
  | TypeError m => Return (Some m)
  | ThrownNull => Throw (TypeError "Cannot read properties of null (reading 'message')")
  | Thrown JsUndefined =>
      Throw (TypeError "Cannot read properties of undefined (reading 'message')")
  | Thrown _ => Return None
  end.

(** ** Shoukaku's track, as the REST search returns it *)

Module Track.
Record Info := mkInfo {
  identifier : string;
  isSeekable : bool;
  author : string;
  length : Z;
  isStream : bool;
  position : Z;
  title : string;
  uri : string;
  sourceName : string;
}.
Record t := mk {
  track : string;
  info : Info;
}.
End Track.

(** ** The track entity *)

Inductive KazagumoHandle := TheKazagumo.

Record ResolveOptions := {
  overwrite : bool;
  forceResolve : bool;
}.

Module KazagumoTrack.
Record t := mk {
  kazagumo : option KazagumoHandle;
  requester : option string;
  track : string;
  sourceName : string;
  title : string;
  uri : string;
  identifier : string;
  isSeekable : bool;
  isStream : bool;
  author : option string;
  length : option Z;
  position : option Z;
  thumbnail : option string;
  realUri : option string;
  resolvedBySource : bool;
}.

(** [get readyToPlay] *)
Definition readyToPlay (this : t) : bool :=
  match kazagumo this with Some _ => true | None => false end
  && negb (String.eqb (track this) "")
  && negb (String.eqb (sourceName this) "")
  && negb (String.eqb (identifier this) "")
  && truthy_string (author this)
  && truthy_number (length this)
  && negb (String.eqb (title this) "")
  && negb (String.eqb (uri this) "")
  && truthy_string (realUri this).
End KazagumoTrack.

(** A reference to a [KazagumoTrack] object. *)
Definition ref := nat.

(** ** The queue *)

(** Modelled from the spec: [KazagumoQueue] (Managers/Supports/KazagumoQueue)
    is not among the sources.  The spec gives it as an ordered sequence of
    pending tracks with two slots beside it, [current] and [previous];
    [size]/[length] count the sequence, [totalSize] adds one when [current]
    is set; [push] appends, [unshift] prepends, [shift] removes and returns
    the front, or nothing when the sequence is empty. *)
Module KazagumoQueue.
Record t := mk {
  items : list ref;
  current : option ref;
  previous : option ref;
}.

Definition size (q : t) : nat := List.length (items q).

Definition totalSize (q : t) : nat :=
  (List.length (items q) + match current q with Some _ => 1 | None => 0 end)%nat.

Definition push (x : ref) (q : t) : t :=
  mk (items q ++ [x]) (current q) (previous q).

Definition unshift (x : ref) (q : t) : t :=
  mk (x :: items q) (current q) (previous q).

Definition shift (q : t) : option ref * t :=
  match items q with
  | [] => (None, q)
  | x :: rest => (Some x, mk rest (current q) (previous q))
  end.

Definition set_current (c : option ref) (q : t) : t :=
  mk (items q) c (previous q).

Definition set_previous (p : option ref) (q : t) : t :=
  mk (items q) (current q) p.
End KazagumoQueue.

(** ** The player *)

(** Modelled from the spec: the [PlayerState] enum (Modules/Interfaces) is not
    among the sources; the spec lists its six members in this order. *)
Inductive PlayerState :=
| CONNECTING
| CONNECTED
| DISCONNECTING
| DISCONNECTED
| DESTROYING
| DESTROYED.

#[export] Instance PlayerState_eq_dec : EqDecision PlayerState.
Proof. solve_decision. Defined.

(** [loop: 'none' | 'queue' | 'track'] *)
Module Loop.
Inductive t := none | queue | track.
End Loop.

#[export] Instance Loop_eq_dec : EqDecision Loop.t.
Proof. solve_decision. Defined.

Record PlayOptions := {
  replaceCurrent : option bool;
  noReplace : option bool;
  pause_opt : option bool;
  startTime : option Z;
  endTime : option Z;
}.

(** A double, kept as the expression that computes it: the model does no
    floating-point arithmetic, and so rounds nothing. *)
Inductive Double :=
| DInt (n : Z)
| DDiv (x y : Double)
| DMul (x y : Double).

Module KazagumoPlayer.
Record t := mk {
  guildId : string;
  voiceId : option string;
  textId : string;
  queue : KazagumoQueue.t;
  state : PlayerState;
  paused : bool;
  playing : bool;
  loop : Loop.t;
  deaf : bool;                       (* options.deaf *)
  volume : Double;                   (* shoukaku.filters.volume *)
}.
End KazagumoPlayer.

(** ** Events and other effects *)

(** What the player publishes on the event bus ([Events] of
    Modules/Interfaces).  The player itself, which every event carries first,
    is left out: the embedding follows one player. *)
Inductive Event :=
| PlayerStart (current : option ref)
| PlayerEnd (finished : option (option ref))   (* no track argument on REPLACED *)
| PlayerEmpty
| PlayerClosed (data : string)
| PlayerException (data : string)
| PlayerUpdate (data : string)
| PlayerStuck (data : string)
| PlayerResumed
| PlayerResolveError (current : ref) (errorMessage : option string)   (* string | undefined *)
| PlayerDestroy
| Debug (text : string).

Inductive Effect :=
| Emit (e : Event)                                     (* kazagumo.emit *)
| SetPaused (b : bool)                                 (* shoukaku.setPaused *)
| PlayTrack (track : string) (options : PlayOptions)   (* shoukaku.playTrack *)
| StopTrack                                            (* shoukaku.stopTrack *)
| DestroyLavalinkPlayer                                (* shoukaku.connection.destroyLavalinkPlayer *)
| RemoveAllListeners                                   (* shoukaku.removeAllListeners *)
| VoiceSend (guild_id : string) (channel_id : option string)
            (self_mute self_deaf : bool)               (* KazagumoOptions.send, op 4 *)
| NodeSendVolume (guildId : string) (volume : Double)   (* this.send, op volume *)
| RestResolve (query : string).                        (* node.rest.resolve *)

(** ** The session: options, worker node, registry *)

(** The user's resolver hook runs with [this] bound to the track: it may
    change the track, and it answers with a boolean or rejects.  A hook is
    user code and could reach further, to the player or to other tracks; the
    embedding covers the hooks that keep to the track they are bound to and
    ask nothing of the collaborators. *)
Definition TrackResolver : Type :=
  KazagumoTrack.t -> option ResolveOptions -> KazagumoTrack.t * Completion bool.

Record KazagumoOptions := {
  defaultSearchEngine : option string;
  sourceForceResolve : option (list string);
  defaultYoutubeThumbnail : option string;
  trackResolver : option TrackResolver;
}.

(** [node.rest.resolve]: rejects, or answers [null], or answers with tracks. *)
Record Node := {
  rest_resolve : string -> Completion (option (list Track.t));
}.

Record Kazagumo := {
  Options : KazagumoOptions;
  getLeastUsedNode : option Node;
  (** the [SourceIDs] table of Modules/Interfaces, not among the sources *)
  SourceIDs : string -> option string;
}.

Record World := mkWorld {
  kazagumo : Kazagumo;
  players : gmap string nat;              (* kazagumo.players *)
  player : KazagumoPlayer.t;
  tracks : ref -> KazagumoTrack.t;        (* the object store *)
  listeners : bool;                       (* shoukaku's listeners still attached *)
  trace : list Effect;
}.

Definition set_player (p : KazagumoPlayer.t) (w : World) : World :=
  mkWorld (kazagumo w) (players w) p (tracks w) (listeners w) (trace w).

Definition set_players (m : gmap string nat) (w : World) : World :=
  mkWorld (kazagumo w) m (player w) (tracks w) (listeners w) (trace w).

Definition set_track (r : ref) (t : KazagumoTrack.t) (w : World) : World :=
  mkWorld (kazagumo w) (players w) (player w) (<[r := t]> (tracks w)) (listeners w) (trace w).

Definition set_listeners (b : bool) (w : World) : World :=
  mkWorld (kazagumo w) (players w) (player w) (tracks w) b (trace w).

Definition perform (e : Effect) (w : World) : World :=
  mkWorld (kazagumo w) (players w) (player w) (tracks w) (listeners w) (trace w ++ [e]).

(** ** The monad of methods *)

Definition M (A : Type) : Type := World -> Completion A * World.

#[export] Instance M_ret : MRet M := fun A a w => (Return a, w).

#[export] Instance M_bind : MBind M := fun A B f m w =>
  match m w with
  | (Return a, w') => f a w'
  | (Throw e, w') => (Throw e, w')
  end.

Definition throw {A} (e : Exn) : M A := fun w => (Throw e, w).
Definition get : M World := fun w => (Return w, w).
Definition modify (f : World -> World) : M unit := fun w => (Return tt, f w).
Definition when (b : bool) (m : M unit) : M unit := if b then m else mret tt.

Definition emit (e : Event) : M unit := modify (perform (Emit e)).
Definition this_player : M KazagumoPlayer.t := fun w => (Return (player w), w).
Definition deref (r : ref) : M KazagumoTrack.t := fun w => (Return (tracks w r), w).
Definition assign (r : ref) (t : KazagumoTrack.t) : M unit := modify (set_track r t).
Definition update_player (f : KazagumoPlayer.t -> KazagumoPlayer.t) : M unit :=
  modify (fun w => set_player (f (player w)) w).

(** ** KazagumoTrack: binding and resolution *)

(** The code unit a case-insensitive [RegExp] compares by, for patterns in
    ASCII: letters a-z fold to A-Z, every other code unit stands for itself.
    Without the [u] flag the engine never equates a code unit below 128 with
    one from beyond, so for an ASCII pattern this is the whole of the [i]
    flag, whatever the subject holds.  For a pattern with letters beyond
    ASCII the engine consults its Unicode tables, which are not modelled:
    what is stated of the match below is stated for ASCII patterns. *)
Definition canonicalize (c : ascii) : ascii :=
  let n := nat_of_ascii c in
  if (97 <=? n)%nat && (n <=? 122)%nat then ascii_of_nat (n - 32) else c.

(** Modelled from the spec: [escapeRegExp] (Modules/Interfaces) is not among
    the sources; the spec says it escapes the special characters of its
    argument so that they match literally.  With it,
    [new RegExp(`^${escapeRegExp(name)}$`, 'i').test(s)] holds exactly when
    [s] is [name], whole string, letter case aside. *)
Fixpoint regexp_exact_i (name s : string) : bool :=
  match name, s with
  | EmptyString, EmptyString => true
  | String a name', String b s' =>
      Ascii.eqb (canonicalize a) (canonicalize b) && regexp_exact_i name' s'
  | _, _ => false
  end.

(** [xs.filter((x) => !!x).join(sep)] over optional strings *)
Definition join_truthy (sep : string) (xs : list (option string)) : string :=
  String.concat sep (omap (fun x => if truthy_string x then x else None) xs).

(** [setKazagumo] *)
Definition setKazagumo (r : ref) : M unit :=
  this ← deref r;
  k ← get;
  let thumbnail' :=
    if String.eqb (KazagumoTrack.sourceName this) "youtube"
       && negb (String.eqb (KazagumoTrack.identifier this) "")
    then Some ("https://img.youtube.com/vi/" +:+ KazagumoTrack.identifier this +:+ "/"
               +:+ default "hqdefault" (defaultYoutubeThumbnail (Options (kazagumo k)))
               +:+ ".jpg")
    else KazagumoTrack.thumbnail this in
  assign r
    (KazagumoTrack.mk (Some TheKazagumo) (KazagumoTrack.requester this)
       (KazagumoTrack.track this) (KazagumoTrack.sourceName this)
       (KazagumoTrack.title this) (KazagumoTrack.uri this)
       (KazagumoTrack.identifier this) (KazagumoTrack.isSeekable this)
       (KazagumoTrack.isStream this) (KazagumoTrack.author this)
       (KazagumoTrack.length this) (KazagumoTrack.position this)
       thumbnail' (KazagumoTrack.realUri this)
       (KazagumoTrack.resolvedBySource this)).

(** The first predicate of [getTrack]: the result's author is the entity's
    author or that author followed by [" - Topic"], or the result's title is
    the entity's title. *)
Definition official (author title : string) (t : Track.t) : bool :=
  existsb (fun name => regexp_exact_i name (Track.author (Track.info t)))
          [author; author +:+ " - Topic"]
  || regexp_exact_i title (Track.title (Track.info t)).

(** The second predicate of [getTrack]: within 2000 ms of the entity's length. *)
Definition sameDuration (length : option Z) (t : Track.t) : bool :=
  let l := if truthy_number length then default 0 length else 0 in
  (l - 2000 <=? Track.length (Track.info t))
  && (Track.length (Track.info t) <=? l + 2000).

(** What [getTrack] picks among the tracks a search returned. *)
Definition pick (this : KazagumoTrack.t) (results : list Track.t) : option Track.t :=
  let officialTrack :=
    if truthy_string (KazagumoTrack.author this)
    then find (official (default "" (KazagumoTrack.author this)) (KazagumoTrack.title this))
              results
    else None in
  match officialTrack with
  | Some t => Some t
  | None =>
      let same :=
        if truthy_number (KazagumoTrack.length this)
        then find (sameDuration (KazagumoTrack.length this)) results
        else None in
      match same with
      | Some t => Some t
      | None => head results
      end
  end.

(** [getTrack] *)
Definition getTrack (r : ref) : M (option Track.t) :=
  this ← deref r;
  w ← get;
  match KazagumoTrack.kazagumo this with
  | None => throw (Error "Kazagumo is not set")
  | Some _ =>
      let engine :=
        if truthy_string (defaultSearchEngine (Options (kazagumo w)))
        then default "" (defaultSearchEngine (Options (kazagumo w)))
        else "youtube" in
      let source :=
        if truthy_string (SourceIDs (kazagumo w) engine)
        then default "" (SourceIDs (kazagumo w) engine)
        else "yt" in
      let query :=
        join_truthy " - " [KazagumoTrack.author this; Some (KazagumoTrack.title this)] in
      match getLeastUsedNode (kazagumo w) with
      | None => throw (KazagumoError 1 "No nodes available")
      | Some node =>
          modify (perform (RestResolve (source +:+ "search:" +:+ query)));;
          match rest_resolve node (source +:+ "search:" +:+ query) with
          | Throw e => throw e
          | Return None => throw (KazagumoError 2 "No results found")
          | Return (Some []) => throw (KazagumoError 2 "No results found")
          | Return (Some results) => mret (pick this results)
          end
      end
  end.

(** [resolve] *)
Definition resolve (r : ref) (options : option ResolveOptions) : M unit :=
  this ← deref r;
  w ← get;
  match KazagumoTrack.kazagumo this with
  | None => throw (KazagumoError 1 "Kazagumo is not set")
  | Some _ =>
      hooked ← match trackResolver (Options (kazagumo w)) with
               | None => mret false
               | Some hook =>
                   assign r (hook this options).1;;
                   match (hook this options).2 with
                   | Return b => mret b
                   | Throw e => throw e
                   end
               end;
      if (hooked : bool) then mret tt else
      this ← deref r;
      let resolveSource :=
        match sourceForceResolve (Options (kazagumo w)) with
        | Some l => bool_decide (KazagumoTrack.sourceName this ∈ l)
        | None => false
        end in
      let force := match options with Some o => forceResolve o | None => false end in
      let over := match options with Some o => overwrite o | None => false end in
      if negb force && KazagumoTrack.readyToPlay this then mret tt else
      if resolveSource && KazagumoTrack.resolvedBySource this then mret tt else
      let marked := if resolveSource then true else KazagumoTrack.resolvedBySource this in
      assign r
        (KazagumoTrack.mk (KazagumoTrack.kazagumo this) (KazagumoTrack.requester this)
           (KazagumoTrack.track this) (KazagumoTrack.sourceName this)
           (KazagumoTrack.title this) (KazagumoTrack.uri this)
           (KazagumoTrack.identifier this) (KazagumoTrack.isSeekable this)
           (KazagumoTrack.isStream this) (KazagumoTrack.author this)
           (KazagumoTrack.length this) (KazagumoTrack.position this)
           (KazagumoTrack.thumbnail this) (KazagumoTrack.realUri this) marked);;
      emit (Debug ("Resolving " +:+ KazagumoTrack.sourceName this +:+ " track "
                   +:+ KazagumoTrack.title this +:+ "; Source: "
                   +:+ KazagumoTrack.sourceName this));;
      found ← getTrack r;
      match found with
      | None => throw (KazagumoError 2 "No results found")
      | Some result =>
          let i := Track.info result in
          if over || resolveSource then
            assign r
              (KazagumoTrack.mk (KazagumoTrack.kazagumo this) (KazagumoTrack.requester this)
                 (Track.track result) (KazagumoTrack.sourceName this)
                 (Track.title i) (Track.uri i)
                 (Track.identifier i) (Track.isSeekable i)
                 (Track.isStream i) (Some (Track.author i))
                 (Some (Track.length i)) (KazagumoTrack.position this)
                 (KazagumoTrack.thumbnail this) (Some (Track.uri i)) marked)
          else
            assign r
              (KazagumoTrack.mk (KazagumoTrack.kazagumo this) (KazagumoTrack.requester this)
                 (Track.track result) (KazagumoTrack.sourceName this)
                 (KazagumoTrack.title this) (KazagumoTrack.uri this)
                 (KazagumoTrack.identifier this) (KazagumoTrack.isSeekable this)
                 (KazagumoTrack.isStream this) (KazagumoTrack.author this)
                 (Some (Track.length i)) (KazagumoTrack.position this)
                 (KazagumoTrack.thumbnail this) (Some (Track.uri i)) marked)
      end
  end.

(** ** KazagumoPlayer: field updates *)

Definition set_voiceId (v : option string) (p : KazagumoPlayer.t) : KazagumoPlayer.t :=
  KazagumoPlayer.mk (KazagumoPlayer.guildId p) v (KazagumoPlayer.textId p)
    (KazagumoPlayer.queue p) (KazagumoPlayer.state p) (KazagumoPlayer.paused p)
    (KazagumoPlayer.playing p) (KazagumoPlayer.loop p) (KazagumoPlayer.deaf p)
    (KazagumoPlayer.volume p).

Definition set_textId (x : string) (p : KazagumoPlayer.t) : KazagumoPlayer.t :=
  KazagumoPlayer.mk (KazagumoPlayer.guildId p) (KazagumoPlayer.voiceId p) x
    (KazagumoPlayer.queue p) (KazagumoPlayer.state p) (KazagumoPlayer.paused p)
    (KazagumoPlayer.playing p) (KazagumoPlayer.loop p) (KazagumoPlayer.deaf p)
    (KazagumoPlayer.volume p).

Definition set_queue (q : KazagumoQueue.t) (p : KazagumoPlayer.t) : KazagumoPlayer.t :=
  KazagumoPlayer.mk (KazagumoPlayer.guildId p) (KazagumoPlayer.voiceId p)
    (KazagumoPlayer.textId p) q (KazagumoPlayer.state p) (KazagumoPlayer.paused p)
    (KazagumoPlayer.playing p) (KazagumoPlayer.loop p) (KazagumoPlayer.deaf p)
    (KazagumoPlayer.volume p).

Definition set_state (s : PlayerState) (p : KazagumoPlayer.t) : KazagumoPlayer.t :=
  KazagumoPlayer.mk (KazagumoPlayer.guildId p) (KazagumoPlayer.voiceId p)
    (KazagumoPlayer.textId p) (KazagumoPlayer.queue p) s (KazagumoPlayer.paused p)
    (KazagumoPlayer.playing p) (KazagumoPlayer.loop p) (KazagumoPlayer.deaf p)
    (KazagumoPlayer.volume p).

Definition set_paused (b : bool) (p : KazagumoPlayer.t) : KazagumoPlayer.t :=
  KazagumoPlayer.mk (KazagumoPlayer.guildId p) (KazagumoPlayer.voiceId p)
    (KazagumoPlayer.textId p) (KazagumoPlayer.queue p) (KazagumoPlayer.state p) b
    (KazagumoPlayer.playing p) (KazagumoPlayer.loop p) (KazagumoPlayer.deaf p)
    (KazagumoPlayer.volume p).

Definition set_playing (b : bool) (p : KazagumoPlayer.t) : KazagumoPlayer.t :=
  KazagumoPlayer.mk (KazagumoPlayer.guildId p) (KazagumoPlayer.voiceId p)
    (KazagumoPlayer.textId p) (KazagumoPlayer.queue p) (KazagumoPlayer.state p)
    (KazagumoPlayer.paused p) b (KazagumoPlayer.loop p) (KazagumoPlayer.deaf p)
    (KazagumoPlayer.volume p).

Definition set_loop (l : Loop.t) (p : KazagumoPlayer.t) : KazagumoPlayer.t :=
  KazagumoPlayer.mk (KazagumoPlayer.guildId p) (KazagumoPlayer.voiceId p)
    (KazagumoPlayer.textId p) (KazagumoPlayer.queue p) (KazagumoPlayer.state p)
    (KazagumoPlayer.paused p) (KazagumoPlayer.playing p) l (KazagumoPlayer.deaf p)
    (KazagumoPlayer.volume p).

Definition set_volume (v : Double) (p : KazagumoPlayer.t) : KazagumoPlayer.t :=
  KazagumoPlayer.mk (KazagumoPlayer.guildId p) (KazagumoPlayer.voiceId p)
    (KazagumoPlayer.textId p) (KazagumoPlayer.queue p) (KazagumoPlayer.state p)
    (KazagumoPlayer.paused p) (KazagumoPlayer.playing p) (KazagumoPlayer.loop p)
    (KazagumoPlayer.deaf p) v.

Definition update_queue (f : KazagumoQueue.t -> KazagumoQueue.t) : M unit :=
  update_player (fun p => set_queue (f (KazagumoPlayer.queue p)) p).

(** ** KazagumoPlayer: the methods that cannot recurse *)

(** [new KazagumoPlayer(kazagumo, player, options, customData)]: the fields as
    the constructor and the field initialisers leave them. *)
Definition new_player (guildId : string) (voiceId : option string) (textId : string)
    (deaf : bool) : KazagumoPlayer.t :=
  KazagumoPlayer.mk guildId voiceId textId (KazagumoQueue.mk [] None None)
    CONNECTING false false Loop.none deaf (DInt 1).

Definition already_destroyed : Exn := KazagumoError 1 "Player is already destroyed".

(** [pause] *)
Definition pause (pause : JsValue) : M unit :=
  match pause with
  | JsBool b =>
      p ← this_player;
      if Bool.eqb (KazagumoPlayer.paused p) b
         || (KazagumoQueue.totalSize (KazagumoPlayer.queue p) =? 0)%nat
      then mret tt
      else
        update_player (set_paused b);;
        update_player (set_playing (negb b));;
        modify (perform (SetPaused b))
  | _ => throw (KazagumoError 1 "pause must be a boolean")
  end.

(** [setTextChannel] *)
Definition setTextChannel (textId : string) : M unit :=
  p ← this_player;
  if decide (KazagumoPlayer.state p = DESTROYED) then throw already_destroyed else
  update_player (set_textId textId).

(** [setVoiceChannel] *)
Definition setVoiceChannel (voiceId : string) : M unit :=
  p ← this_player;
  if decide (KazagumoPlayer.state p = DESTROYED) then throw already_destroyed else
  update_player (set_state CONNECTING);;
  update_player (set_voiceId (Some voiceId));;
  modify (perform (VoiceSend (KazagumoPlayer.guildId p) (Some voiceId) false
                     (KazagumoPlayer.deaf p)));;
  emit (Debug ("Player " +:+ KazagumoPlayer.guildId p +:+ " moved to voice channel "
               +:+ voiceId)).

(** [setLoop] *)
Definition setLoop (loop : JsValue) : M unit :=
  match loop with
  | JsUndefined =>
      p ← this_player;
      match KazagumoPlayer.loop p with
      | Loop.none => update_player (set_loop Loop.queue)
      | Loop.queue => update_player (set_loop Loop.track)
      | Loop.track => update_player (set_loop Loop.none)
      end
  | JsString s =>
      if String.eqb s "none" then update_player (set_loop Loop.none)
      else if String.eqb s "queue" then update_player (set_loop Loop.queue)
      else if String.eqb s "track" then update_player (set_loop Loop.track)
      else throw (KazagumoError 1 "loop must be one of 'none', 'queue', 'track'")
  | _ => throw (KazagumoError 1 "loop must be one of 'none', 'queue', 'track'")
  end.

(** [skip] *)
Definition skip : M unit :=
  p ← this_player;
  if decide (KazagumoPlayer.state p = DESTROYED) then throw already_destroyed else
  modify (perform StopTrack).

(** [setVolume]; the argument is an integer or [NaN] ([None]).  The filter
    holds [volume / 100] and the payload [filters.volume * 100], both as the
    code computes them, in doubles. *)
Definition setVolume (volume : option Z) : M unit :=
  p ← this_player;
  if decide (KazagumoPlayer.state p = DESTROYED) then throw already_destroyed else
  match volume with
  | None => throw (KazagumoError 1 "volume must be a number")
  | Some v =>
      update_player (set_volume (DDiv (DInt v) (DInt 100)));;
      modify (perform (NodeSendVolume (KazagumoPlayer.guildId p)
                         (DMul (DDiv (DInt v) (DInt 100)) (DInt 100))))
  end.

(** [connect] *)
Definition connect : M unit :=
  p ← this_player;
  if decide (KazagumoPlayer.state p = DESTROYED) then throw already_destroyed else
  if bool_decide (KazagumoPlayer.state p = CONNECTED)
     || truthy_string (KazagumoPlayer.voiceId p)
  then throw (KazagumoError 1 "Player is already connected") else
  update_player (set_state CONNECTING);;
  modify (perform (VoiceSend (KazagumoPlayer.guildId p) (KazagumoPlayer.voiceId p) false
                     (KazagumoPlayer.deaf p)));;
  update_player (set_state CONNECTED);;
  emit (Debug ("Player " +:+ KazagumoPlayer.guildId p +:+ " connected")).

(** [disconnect] *)
Definition disconnect : M unit :=
  p ← this_player;
  if bool_decide (KazagumoPlayer.state p = DISCONNECTED)
     || negb (truthy_string (KazagumoPlayer.voiceId p))
  then throw (KazagumoError 1 "Player is already disconnected") else
  update_player (set_state DISCONNECTING);;
  pause (JsBool true);;
  modify (perform (VoiceSend (KazagumoPlayer.guildId p) None false false));;
  update_player (set_voiceId None);;
  update_player (set_state DISCONNECTED);;
  emit (Debug ("Player disconnected; Guild id: " +:+ KazagumoPlayer.guildId p)).

(** [destroy] *)
Definition destroy : M unit :=
  p ← this_player;
  if bool_decide (KazagumoPlayer.state p = DESTROYING)
     || bool_decide (KazagumoPlayer.state p = DESTROYED)
  then throw already_destroyed else
  disconnect;;
  update_player (set_state DESTROYING);;
  modify (perform DestroyLavalinkPlayer);;
  modify (perform RemoveAllListeners);;
  modify (set_listeners false);;
  modify (fun w => set_players (delete (KazagumoPlayer.guildId p) (players w)) w);;
  update_player (set_state DESTROYED);;
  emit PlayerDestroy;;
  emit (Debug ("Player destroyed; Guild id: " +:+ KazagumoPlayer.guildId p)).

(** ** KazagumoPlayer: [play] and the worker's notifications *)

(** What a caller hands to [play] as its track: nothing, a [KazagumoTrack], or
    some other truthy value. *)
Inductive TrackArg :=
| NoTrack
| ATrack (r : ref)
| NotATrack.

#[export] Instance TrackArg_eq_dec : EqDecision TrackArg.
Proof. solve_decision. Defined.

Definition no_track_available : Exn := KazagumoError 1 "No track is available to play".

(** [options = { ...options, replaceCurrent: false }] unless [replaceCurrent]
    is already a boolean. *)
Definition normalize_options (options : option PlayOptions) : PlayOptions :=
  match options with
  | Some o =>
      match replaceCurrent o with
      | Some _ => o
      | None => Build_PlayOptions (Some false) (noReplace o) (pause_opt o) (startTime o) (endTime o)
      end
  | None => Build_PlayOptions (Some false) None None None None
  end.

(** [play], from its entry to [current.setKazagumo(this.kazagumo)]: the
    checks, the choice of the track to play and its binding. *)
Definition play_select (track : TrackArg) (options : option PlayOptions) : M (ref * PlayOptions) :=
  p ← this_player;
  if decide (KazagumoPlayer.state p = DESTROYED) then throw already_destroyed else
  if bool_decide (track = NotATrack) then throw (KazagumoError 1 "track must be a KazagumoTrack") else
  if bool_decide (track = NoTrack)
     && (KazagumoQueue.totalSize (KazagumoPlayer.queue p) =? 0)%nat
  then throw no_track_available else
  let options := normalize_options options in
  match track with
  | ATrack t =>
      match KazagumoQueue.current (KazagumoPlayer.queue p) with
      | Some c => when (negb (default false (replaceCurrent options)))
                       (update_queue (KazagumoQueue.unshift c))
      | None => mret tt
      end;;
      update_queue (KazagumoQueue.set_current (Some t))
  | _ =>
      match KazagumoQueue.current (KazagumoPlayer.queue p) with
      | Some _ => mret tt
      | None =>
          update_queue (fun q => KazagumoQueue.set_current (KazagumoQueue.shift q).1
                                   (KazagumoQueue.shift q).2)
      end
  end;;
  p ← this_player;
  match KazagumoQueue.current (KazagumoPlayer.queue p) with
  | None => throw no_track_available
  | Some current => setKazagumo current;; mret (current, options)
  end.

(** [shoukaku.playTrack({ track: current.track, options: { ...options, noReplace: false } })] *)
Definition playTrack (current : ref) (options : PlayOptions) : M unit :=
  this ← deref current;
  modify (perform (PlayTrack (KazagumoTrack.track this)
                     (Build_PlayOptions (replaceCurrent options) (Some false)
                        (pause_opt options) (startTime options) (endTime options)))).

(** What [play] does between a failed [resolve] and its decision to go on:
    the two events and [this.queue.current = null].  In the template literal
    an [errorMessage] that is [undefined] reads "undefined". *)
Definition resolve_failed (current : ref) (errorMessage : option string) : M unit :=
  p ← this_player;
  emit (PlayerResolveError current errorMessage);;
  emit (Debug ("Player " +:+ KazagumoPlayer.guildId p +:+ " resolve error: "
               +:+ default "undefined" errorMessage));;
  update_queue (KazagumoQueue.set_current None).

(** A method that may call [play]: [None] when the fuel does not cover the
    chain of [play] calls. *)
Definition F (A : Type) : Type := World -> option (Completion A * World).

Definition lift {A} (m : M A) : F A := fun w => Some (m w).

(** [play].  A rejected [resolve] is caught where it is awaited, by a
    handler that reads [e.message]: when that read throws, the handler
    rejects and so does [play], at once.  The inner [this.play()] is not
    awaited, its outcome is dropped. *)
Fixpoint play (fuel : nat) (track : TrackArg) (options : option PlayOptions) : F unit :=
  fun w =>
  match fuel with
  | O => None
  | S fuel =>
      match play_select track options w with
      | (Throw e, w1) => Some (Throw e, w1)
      | (Return (current, options), w1) =>
          match resolve current None w1 with
          | (Throw e, w2) =>
              (* .catch: errorMessage = e.message, resolveResult = null *)
              match message e with
              | Throw e' => Some (Throw e', w2)
              | Return errorMessage =>
                  let w3 := (resolve_failed current errorMessage w2).2 in
                  if (KazagumoQueue.size (KazagumoPlayer.queue (player w3)) =? 0)%nat
                  then Some (emit PlayerEmpty w3)
                  else
                    match play fuel NoTrack None w3 with
                    | None => None
                    | Some (_, w4) => Some (Return tt, w4)
                    end
              end
          | (Return _, w2) => Some (playTrack current options w2)
          end
      end
  end.

(** The [start] listener. *)
Definition on_start : M unit :=
  update_player (set_playing true);;
  p ← this_player;
  emit (PlayerStart (KazagumoQueue.current (KazagumoPlayer.queue p))).

(** The [end] listener; [reason] is [data.reason].  Where it hands over to
    [play()], nobody awaits that promise: the listener has returned, and a
    rejection of the promise stays unhandled. *)
Definition on_end (fuel : nat) (reason : string) : F unit :=
  fun w =>
  let p := player w in
  if bool_decide (KazagumoPlayer.state p = DESTROYING)
     || bool_decide (KazagumoPlayer.state p = DESTROYED)
  then Some (emit (Debug ("Player " +:+ KazagumoPlayer.guildId p
                          +:+ " destroyed from end event")) w)
  else if String.eqb reason "REPLACED" then Some (emit (PlayerEnd None) w)
  else if bool_decide (reason ∈ ["LOAD_FAILED"; "CLEAN_UP"]) then
    let current := KazagumoQueue.current (KazagumoPlayer.queue p) in
    let w1 := (update_queue (KazagumoQueue.set_previous current);;
               update_player (set_playing false)) w in
    if (KazagumoQueue.size (KazagumoPlayer.queue p) =? 0)%nat
    then Some (emit PlayerEmpty w1.2)
    else
      let w2 := (emit (PlayerEnd (Some current));;
                 update_queue (KazagumoQueue.set_current None)) w1.2 in
      match play fuel NoTrack None w2.2 with
      | None => None
      | Some (_, w3) => Some (Return tt, w3)
      end
  else
    let current := KazagumoQueue.current (KazagumoPlayer.queue p) in
    let w1 :=
      (match current with
       | Some c =>
           when (bool_decide (KazagumoPlayer.loop p = Loop.track))
                (update_queue (KazagumoQueue.unshift c));;
           when (bool_decide (KazagumoPlayer.loop p = Loop.queue))
                (update_queue (KazagumoQueue.push c))
       | None => mret tt
       end;;
       update_queue (KazagumoQueue.set_previous current);;
       update_queue (KazagumoQueue.set_current None)) w in
    if (KazagumoQueue.size (KazagumoPlayer.queue (player w1.2)) =? 0)%nat
    then Some ((update_player (set_playing false);; emit PlayerEmpty) w1.2)
    else
      match play fuel NoTrack None (emit (PlayerEnd (Some current)) w1.2).2 with
      | None => None
      | Some (_, w3) => Some (Return tt, w3)
      end.

(** The other listeners. *)
Definition on_closed (data : string) : M unit :=
  update_player (set_playing false);; emit (PlayerClosed data).

Definition on_exception (data : string) : M unit :=
  update_player (set_playing false);; emit (PlayerException data).

Definition on_update (data : string) : M unit := emit (PlayerUpdate data).
Definition on_stuck (data : string) : M unit := emit (PlayerStuck data).
Definition on_resumed : M unit := emit PlayerResumed.

(** ** The player's interface, as data *)

(** The public methods that change the player. *)
Inductive Op :=
| OpPause (pause : JsValue)
| OpSetTextChannel (textId : string)
| OpSetVoiceChannel (voiceId : string)
| OpSetLoop (loop : JsValue)
| OpPlay (track : TrackArg) (options : option PlayOptions)
| OpSkip
| OpSetVolume (volume : option Z)
| OpConnect
| OpDisconnect
| OpDestroy.

Definition call (fuel : nat) (op : Op) : F unit :=
  match op with
  | OpPause v => lift (pause v)
  | OpSetTextChannel s => lift (setTextChannel s)
  | OpSetVoiceChannel s => lift (setVoiceChannel s)
  | OpSetLoop v => lift (setLoop v)
  | OpPlay t o => play fuel t o
  | OpSkip => lift skip
  | OpSetVolume v => lift (setVolume v)
  | OpConnect => lift connect
  | OpDisconnect => lift disconnect
  | OpDestroy => lift destroy
  end.

(** The methods that begin with the [DESTROYED] check. *)
Definition guarded (op : Op) : bool :=
  match op with
  | OpPause _ | OpSetLoop _ | OpDisconnect => false
  | _ => true
  end.

(** What the worker connection tells the player. *)
Inductive Notification :=
| NStart
| NEnd (reason : string)
| NClosed (data : string)
| NException (data : string)
| NUpdate (data : string)
| NStuck (data : string)
| NResumed.

(** A notification reaches its listener while the listeners are attached. *)
Definition notify (fuel : nat) (n : Notification) : F unit :=
  fun w =>
  if listeners w then
    match n with
    | NStart => lift on_start w
    | NEnd reason => on_end fuel reason w
    | NClosed d => lift (on_closed d) w
    | NException d => lift (on_exception d) w
    | NUpdate d => lift (on_update d) w
    | NStuck d => lift (on_stuck d) w
    | NResumed => lift on_resumed w
    end
  else Some (Return tt, w).

(** ** Stating what a method does *)

(** The cycle of [setLoop()] as the spec words it: none, queue, track, none. *)
Definition spec_cycle (l : Loop.t) : Loop.t :=
  match l with
  | Loop.none => Loop.queue
  | Loop.queue => Loop.track
  | Loop.track => Loop.none
  end.

(** What [pause(true)] asks of the worker connection: nothing when the player
    is paused already or holds no track. *)
Definition pause_effects (p : KazagumoPlayer.t) : list Effect :=
  if Bool.eqb (KazagumoPlayer.paused p) true
     || (KazagumoQueue.totalSize (KazagumoPlayer.queue p) =? 0)%nat
  then [] else [SetPaused true].







(** The world with the player's loop mode replaced, every other field of
    the player and of the world as it is. *)
Definition with_loop (l : Loop.t) (w : World) : World :=
  mkWorld (kazagumo w) (players w)
    (KazagumoPlayer.mk (KazagumoPlayer.guildId (player w)) (KazagumoPlayer.voiceId (player w))
       (KazagumoPlayer.textId (player w)) (KazagumoPlayer.queue (player w))
       (KazagumoPlayer.state (player w)) (KazagumoPlayer.paused (player w))
       (KazagumoPlayer.playing (player w)) l (KazagumoPlayer.deaf (player w))
       (KazagumoPlayer.volume (player w)))
    (tracks w) (listeners w) (trace w).

(** The world with the player's queue replaced. *)
Definition with_queue (q : KazagumoQueue.t) (w : World) : World :=
  set_player (set_queue q (player w)) w.


Definition is_PlayerEmpty (e : Effect) : bool :=
  match e with Emit PlayerEmpty => true | _ => false end.

Definition count (f : Effect -> bool) (l : list Effect) : nat :=
  List.length (List.filter f l).

(** Two worlds that differ at most in the object store and the trace. *)
Definition same_session (w w' : World) : Prop :=
  kazagumo w' = kazagumo w /\ players w' = players w /\ listeners w' = listeners w.

(** Two players that differ at most in the pending tracks and [current]. *)
Definition same_but_queue (p p' : KazagumoPlayer.t) : Prop :=
  p' = set_queue (KazagumoPlayer.queue p') p
  /\ KazagumoQueue.previous (KazagumoPlayer.queue p') = KazagumoQueue.previous (KazagumoPlayer.queue p).

(** A method keeps a relation between the world it starts in and the world
    it leaves, however it completes. *)
Definition keeps (R : World -> World -> Prop) {A} (m : M A) : Prop :=
  forall w, R w (m w).2.

(** The track methods change the object store and the trace only. *)
Definition store_only (w w' : World) : Prop :=
  player w' = player w /\ same_session w w'.

(** [play] changes the store, the trace, the pending tracks and [current]. *)
Definition queue_only (w w' : World) : Prop :=
  same_but_queue (player w) (player w') /\ same_session w w'.

(** A method adds to the trace only effects that pass [P]. *)
Definition adds (P : Effect -> bool) (w w' : World) : Prop :=
  exists l, trace w' = trace w ++ l /\ forallb P l = true.

(** What resolving a track may ask for: a debug event and a search. *)
Definition resolve_effect (e : Effect) : bool :=
  match e with
  | Emit (Debug _) | RestResolve _ => true
  | _ => false
  end.



(** The worlds a player goes through: built by the constructor, then driven
    by method calls and by the worker's notifications, while the caller fills
    the queue and creates tracks as it likes. *)
Inductive Reachable : World -> Prop :=
| reach_new (k : Kazagumo) (ps : gmap string nat) (guildId : string) (voiceId : option string)
    (textId : string) (deaf : bool) (store : ref -> KazagumoTrack.t) :
    Reachable (mkWorld k ps (new_player guildId voiceId textId deaf) store true [])
| reach_call (w : World) (fuel : nat) (op : Op) (c : Completion unit) (w' : World) :
    Reachable w -> call fuel op w = Some (c, w') -> Reachable w'
| reach_notify (w : World) (fuel : nat) (n : Notification) (c : Completion unit) (w' : World) :
    Reachable w -> notify fuel n w = Some (c, w') -> Reachable w'
| reach_queue (w : World) (q : KazagumoQueue.t) :
    Reachable w -> Reachable (with_queue q w)
| reach_track (w : World) (r : ref) (t : KazagumoTrack.t) :
    Reachable w -> Reachable (set_track r t w).

(** A destroyed player has no voice link and no listener left. *)
Definition destroyed_inert (w : World) : Prop :=
  KazagumoPlayer.state (player w) = DESTROYED ->
  KazagumoPlayer.voiceId (player w) = None /\ listeners w = false.

(** ** A session to run examples in *)

Definition info_of (author title : string) (length : Z) : Track.Info :=
  Track.mkInfo "id" true author length false 0 title "https://example.org/watch" "youtube".

Definition found (base64 author title : string) (length : Z) : Track.t :=
  Track.mk base64 (info_of author title length).

(** A track that was resolved before. *)
Definition ready_entity : KazagumoTrack.t :=
  KazagumoTrack.mk (Some TheKazagumo) None "QAAA" "youtube" "Song" "https://example.org/watch"
    "vid" true false (Some "Band") (Some 180000) (Some 0) None
    (Some "https://example.org/watch") false.

(** Samples for the fallback search. *)
Definition entity_X_Y : KazagumoTrack.t :=
  KazagumoTrack.mk (Some TheKazagumo) None "" "spotify" "Y" "https://example.org/track" "e1"
    true false (Some "X") (Some 180000) (Some 0) None None false.

Definition entity_no_author : KazagumoTrack.t :=
  KazagumoTrack.mk (Some TheKazagumo) None "" "spotify" "Y" "https://example.org/track" "e1"
    true false None (Some 180000) (Some 0) None None false.




Definition results_durations : list Track.t :=
  [found "r0" "P" "Q" 150000; found "r1" "P" "Q" 179000; found "r2" "P" "Q" 181500].

Definition no_options : KazagumoOptions :=
  Build_KazagumoOptions None None None None.

Definition node_answering (results : list Track.t) : Node :=
  Build_Node (fun _ => Return (Some results)).

Definition session (node : option Node) : Kazagumo :=
  Build_Kazagumo no_options node (fun _ => None).

Definition world_of (k : Kazagumo) (p : KazagumoPlayer.t) (store : ref -> KazagumoTrack.t) : World :=
  mkWorld k {[ KazagumoPlayer.guildId p := 1%nat ]} p store true [].

Definition searching_world (this : KazagumoTrack.t) (results : list Track.t) : World :=
  world_of (session (Some (node_answering results)))
    (new_player "guild" (Some "voice") "text" false) (fun _ => this).

(** A resolver hook that retitles the track and reports success. *)
Definition retitling_hook : TrackResolver := fun this _ =>
  (KazagumoTrack.mk (KazagumoTrack.kazagumo this) (KazagumoTrack.requester this)
     (KazagumoTrack.track this) (KazagumoTrack.sourceName this)
     "Other" (KazagumoTrack.uri this)
     (KazagumoTrack.identifier this) (KazagumoTrack.isSeekable this)
     (KazagumoTrack.isStream this) (KazagumoTrack.author this)
     (KazagumoTrack.length this) (KazagumoTrack.position this)
     (KazagumoTrack.thumbnail this) (KazagumoTrack.realUri this)
     (KazagumoTrack.resolvedBySource this),
   Return true).

(** A resolver hook that looks and declines. *)
Definition declining_hook : TrackResolver := fun this _ => (this, Return false).

Definition hooked_world (hook : TrackResolver) (this : KazagumoTrack.t) : World :=
  world_of (Build_Kazagumo (Build_KazagumoOptions None None None (Some hook)) None (fun _ => None))
    (new_player "guild" (Some "voice") "text" false) (fun _ => this).

(** Players to run the life cycle on. *)
Definition fresh_world : World :=
  world_of (session None) (new_player "guild" (Some "voice") "text" false) (fun _ => ready_entity).

Definition disconnected_world : World := (disconnect fresh_world).2.

Definition destroyed_world : World := (destroy fresh_world).2.

(** A player with a track underway and one pending, and what [destroy] leaves of it. *)
Definition busy_world : World :=
  world_of (session None)
    (KazagumoPlayer.mk "guild" (Some "voice") "text" (KazagumoQueue.mk [1%nat] (Some 0%nat) None)
       CONNECTING false true Loop.none false (DInt 1))
    (fun _ => ready_entity).

Definition destroyed_busy_world : World := (destroy busy_world).2.

(** A track that was resolved once but reports no author: it is never
    [readyToPlay], so every [resolve] searches again. *)
Definition authorless_entity : KazagumoTrack.t :=
  KazagumoTrack.mk (Some TheKazagumo) None "QAAA" "http" "Y" "https://example.org/y.mp3"
    "https://example.org/y.mp3" true false (Some "") (Some 180000) (Some 0) None
    (Some "https://example.org/y.mp3") false.

(** A player in the middle of a queue of such tracks, in a session whose
    nodes are all gone: every [resolve] fails. *)
Definition stranded_world (l : Loop.t) (pending : list ref) : World :=
  world_of (session None)
    (KazagumoPlayer.mk "guild" (Some "voice") "text" (KazagumoQueue.mk pending (Some 0%nat) None)
       CONNECTING false true l false (DInt 1))
    (fun _ => authorless_entity).

(** The same player with tracks that were resolved before. *)
Definition playing_world (l : Loop.t) (pending : list ref) : World :=
  world_of (session None)
    (KazagumoPlayer.mk "guild" (Some "voice") "text" (KazagumoQueue.mk pending (Some 0%nat) None)
       CONNECTING false true l false (DInt 1))
    (fun _ => ready_entity).



(** ** KazagumoTrack: the constructor and [getRaw] *)

(** The record a track is built from and [getRaw] gives back: the shape
    [getRaw] writes out, with the optional fields of the class optional. *)
Module RawTrack.
Record Info := mkInfo {
  title : string;
  uri : string;
  identifier : string;
  author : option string;
  sourceName : string;
  isSeekable : bool;
  isStream : bool;
  length : option Z;
  position : option Z;
  thumbnail : option string;
}.
Record t := mk {
  track : string;
  info : Info;
}.
End RawTrack.

(** [new KazagumoTrack(raw, requester)]; [SupportedSources] is the list of
    Modules/Interfaces, not among the sources. *)
Definition new_track (SupportedSources : list string) (raw : RawTrack.t)
    (requester : option string) : KazagumoTrack.t :=
  let i := RawTrack.info raw in
  KazagumoTrack.mk None requester (RawTrack.track raw) (RawTrack.sourceName i)
    (RawTrack.title i) (RawTrack.uri i) (RawTrack.identifier i)
    (RawTrack.isSeekable i) (RawTrack.isStream i) (RawTrack.author i)
    (RawTrack.length i) (RawTrack.position i)
    (if String.eqb (RawTrack.sourceName i) "youtube"
        && negb (String.eqb (RawTrack.identifier i) "")
     then Some ("https://img.youtube.com/vi/" +:+ RawTrack.identifier i +:+ "/hqdefault.jpg")
     else RawTrack.thumbnail i)
    (if bool_decide (RawTrack.sourceName i ∈ SupportedSources)
     then Some (RawTrack.uri i) else None)
    false.

(** [getRaw] *)
Definition getRaw (this : KazagumoTrack.t) : RawTrack.t :=
  RawTrack.mk (KazagumoTrack.track this)
    (RawTrack.mkInfo (KazagumoTrack.title this) (KazagumoTrack.uri this)
       (KazagumoTrack.identifier this) (KazagumoTrack.author this)
       (KazagumoTrack.sourceName this) (KazagumoTrack.isSeekable this)
       (KazagumoTrack.isStream this) (KazagumoTrack.length this)
       (KazagumoTrack.position this) (KazagumoTrack.thumbnail this)).

(** ** More sessions to run examples in *)

Definition supported_sources : list string :=
  ["bandcamp"; "http"; "local"; "soundcloud"; "twitch"; "vimeo"; "youtube"].

Definition raw_video : RawTrack.t :=
  RawTrack.mk "QAAA"
    (RawTrack.mkInfo "Song" "https://example.org/watch" "vid" (Some "Band") "youtube"
       true false (Some 180000) (Some 0) None).

Definition raw_spotify : RawTrack.t :=
  RawTrack.mk ""
    (RawTrack.mkInfo "Y" "https://example.org/track" "e1" (Some "X") "spotify"
       true false (Some 180000) (Some 0) (Some "https://example.org/cover.jpg")).

(** A session that resolves every spotify track by search. *)
Definition forcing_session (node : option Node) : Kazagumo :=
  Build_Kazagumo (Build_KazagumoOptions None (Some ["spotify"]) None None) node (fun _ => None).

Definition forcing_world (node : option Node) (this : KazagumoTrack.t) : World :=
  world_of (forcing_session node) (new_player "guild" (Some "voice") "text" false)
    (fun _ => this).

Definition results_complete : list Track.t :=
  [found "r0" "X" "Y" 180500; found "r1" "Z" "Q" 100000].

Definition unbound_world : World :=
  world_of (session None) (new_player "guild" (Some "voice") "text" false)
    (fun _ => new_track supported_sources raw_spotify None).

(** All tracks but [r] are as they were. *)
Definition others_untouched (r : ref) (w w' : World) : Prop :=
  forall r', r' <> r -> tracks w' r' = tracks w r'.

(** What no method changes of a track once it is built. *)
Definition same_identity (t t' : KazagumoTrack.t) : Prop :=
  KazagumoTrack.sourceName t' = KazagumoTrack.sourceName t
  /\ KazagumoTrack.requester t' = KazagumoTrack.requester t
  /\ KazagumoTrack.position t' = KazagumoTrack.position t.

(** [resolveSource] of [resolve]: the track's source is one the session
    always resolves by search. *)
Definition resolveSource (w : World) (this : KazagumoTrack.t) : bool :=
  match sourceForceResolve (Options (kazagumo w)) with
  | Some l => bool_decide (KazagumoTrack.sourceName this ∈ l)
  | None => false
  end.

Definition forced (o : option ResolveOptions) : bool :=
  match o with Some x => forceResolve x | None => false end.

Definition overwriting (o : option ResolveOptions) : bool :=
  match o with Some x => overwrite x | None => false end.

Definition is_search (e : Effect) : bool :=
  match e with RestResolve _ => true | _ => false end.


(** What [play] may ask for, with the options every submission carries:
    [noReplace] false and a boolean [replaceCurrent]. *)
Definition play_effect_strict (e : Effect) : bool :=
  match e with
  | Emit (Debug _) | RestResolve _ | Emit (PlayerResolveError _ _) | Emit PlayerEmpty => true
  | PlayTrack _ o =>
      bool_decide (noReplace o = Some false)
      && match replaceCurrent o with Some _ => true | None => false end
  | _ => false
  end.

Definition is_PlayTrack (e : Effect) : bool :=
  match e with PlayTrack _ _ => true | _ => false end.

Definition is_ResolveError (e : Effect) : bool :=
  match e with Emit (PlayerResolveError _ _) => true | _ => false end.

(** The conjuncts of [readyToPlay] that do not depend on the session link. *)
Definition complete (this : KazagumoTrack.t) : bool :=
  negb (String.eqb (KazagumoTrack.track this) "")
  && negb (String.eqb (KazagumoTrack.sourceName this) "")
  && negb (String.eqb (KazagumoTrack.identifier this) "")
  && truthy_string (KazagumoTrack.author this)
  && truthy_number (KazagumoTrack.length this)
  && negb (String.eqb (KazagumoTrack.title this) "")
  && negb (String.eqb (KazagumoTrack.uri this) "")
  && truthy_string (KazagumoTrack.realUri this).

(** * Properties *)

(** ** Running a method symbolically *)

Ltac run :=
  cbv beta iota zeta delta
    [mbind M_bind mret M_ret throw get modify when emit this_player deref assign
     update_player update_queue lift];
  cbn [fst snd].

(** ** The fallback search *)

Lemma canonicalize_eqb_refl (c : ascii) : Ascii.eqb (canonicalize c) (canonicalize c) = true.
Proof. apply Ascii.eqb_refl. Qed.

Lemma regexp_exact_i_refl (s : string) : regexp_exact_i s s = true.
Proof.
  induction s as [|c s IH]; simpl; [reflexivity|].
  rewrite canonicalize_eqb_refl. exact IH.
Qed.

Lemma regexp_exact_i_length (name s : string) :
  regexp_exact_i name s = true -> String.length name = String.length s.
Proof.
  revert s. induction name as [|a name IH]; intros [|b s]; simpl; try discriminate; auto.
  intros H. apply andb_true_iff in H as [_ H]. f_equal. auto.
Qed.

Lemma official_topic (author title : string) (t : Track.t) :
  Track.author (Track.info t) = author +:+ " - Topic" -> official author title t = true.
Proof.
  intros H. unfold official. simpl. rewrite H, regexp_exact_i_refl.
  rewrite orb_true_r. reflexivity.
Qed.


Lemma getTrack_picks (r : ref) (w : World) (n : Node) (results : list Track.t) :
  KazagumoTrack.kazagumo (tracks w r) <> None ->
  getLeastUsedNode (kazagumo w) = Some n ->
  (forall q, rest_resolve n q = Return (Some results)) ->
  results <> [] ->
  exists q, getTrack r w = (Return (pick (tracks w r) results), perform (RestResolve q) w).
Proof.
  intros Hk Hn Hr Hne. unfold getTrack. run.
  destruct (KazagumoTrack.kazagumo (tracks w r)); [|congruence].
  rewrite Hn. run. rewrite Hr.
  destruct results; [congruence|]. eexists. reflexivity.
Qed.











(** C7. For a bound entity with no author and length 180000 whose search
    returns three results of durations 150000, 179000 and 181500, in that
    order, [getTrack] returns the second, the 179000 one, and so not the
    181500 one. *)
Theorem getTrack_duration_window (r : ref) (w : World) (n : Node) (r0 r1 r2 : Track.t) :
  KazagumoTrack.kazagumo (tracks w r) <> None ->
  truthy_string (KazagumoTrack.author (tracks w r)) = false ->
  KazagumoTrack.length (tracks w r) = Some 180000 ->
  getLeastUsedNode (kazagumo w) = Some n ->
  (forall q, rest_resolve n q = Return (Some [r0; r1; r2])) ->
  Track.length (Track.info r0) = 150000 ->
  Track.length (Track.info r1) = 179000 ->
  Track.length (Track.info r2) = 181500 ->
  (getTrack r w).1 = Return (Some r1)
  /\ Track.length (Track.info r1) <> Track.length (Track.info r2).
Proof.
  intros Hk Ha Hl Hn Hr H0 H1 H2. split; [|lia].
  destruct (getTrack_picks r w n [r0; r1; r2] Hk Hn Hr) as [q ->]; [discriminate|].
  cbn [fst]. f_equal. unfold pick. rewrite Ha, Hl. cbn [truthy_number find].
  unfold sameDuration. cbn [truthy_number default]. rewrite H0, H1. reflexivity.
Qed.

Lemma getTrack_duration_window_witness :
  (getTrack 0%nat (searching_world entity_no_author results_durations)).1
  = Return (Some (found "r1" "P" "Q" 179000))
  /\ Track.length (Track.info (found "r1" "P" "Q" 179000))
     <> Track.length (Track.info (found "r2" "P" "Q" 181500)).
Proof.
  apply (getTrack_duration_window 0%nat (searching_world entity_no_author results_durations)
           (node_answering results_durations)
           (found "r0" "P" "Q" 150000) (found "r1" "P" "Q" 179000) (found "r2" "P" "Q" 181500)).
  - discriminate.
  - reflexivity.
  - reflexivity.
  - reflexivity.
  - intros q. reflexivity.
  - reflexivity.
  - reflexivity.
  - reflexivity.
Defined.

(** ** Resolution *)

(** C8 (as the code has it). The resolver hook runs before the short-circuit.
    For an entity that is [readyToPlay] (and so bound), [resolve] without
    [forceResolve], in a session with no resolver hook or with a hook that
    answers without touching the entity, returns with every track of the
    store as it was, the player as it was, and nothing added to the trace:
    no search, no event. *)
Theorem resolve_ready_noop (r : ref) (o : option ResolveOptions) (w : World) :
  KazagumoTrack.readyToPlay (tracks w r) = true ->
  match o with Some x => forceResolve x = false | None => True end ->
  (forall hook, trackResolver (Options (kazagumo w)) = Some hook ->
     (hook (tracks w r) o).1 = tracks w r /\ exists b, (hook (tracks w r) o).2 = Return b) ->
  exists w',
    resolve r o w = (Return tt, w')
    /\ (forall r', tracks w' r' = tracks w r')
    /\ trace w' = trace w
    /\ player w' = player w
    /\ players w' = players w
    /\ listeners w' = listeners w.
Proof.
  intros Hready Hforce Hhook.
  assert (Hbound : exists k, KazagumoTrack.kazagumo (tracks w r) = Some k).
  { unfold KazagumoTrack.readyToPlay in Hready.
    destruct (KazagumoTrack.kazagumo (tracks w r)) as [k|]; [eauto|discriminate]. }
  destruct Hbound as [k Hk].
  assert (Hf : negb (match o with Some x => forceResolve x | None => false end) = true).
  { destruct o as [x|]; [rewrite Hforce|]; reflexivity. }
  unfold resolve. run. rewrite Hk.
  destruct (trackResolver (Options (kazagumo w))) as [hook|] eqn:Eh.
  - destruct (Hhook hook eq_refl) as [Hsame [b Hb]].
    run. rewrite Hb, Hsame.
    assert (Hstore : forall r', tracks (set_track r (tracks w r) w) r' = tracks w r').
    { intros r'. unfold set_track. cbn [tracks].
      destruct (decide (r = r')) as [->|Hne];
        [apply fn_lookup_insert | apply fn_lookup_insert_ne; exact Hne]. }
    destruct b.
    + eexists. split; [reflexivity|]. repeat split. exact Hstore.
    + rewrite Hstore, Hf, Hready. cbn [andb].
      eexists. split; [reflexivity|]. repeat split. exact Hstore.
  - rewrite Hf, Hready. cbn [andb]. exists w. repeat split.
Qed.

Lemma resolve_ready_noop_witness :
  exists w',
    resolve 0%nat None (hooked_world declining_hook ready_entity) = (Return tt, w')
    /\ (forall r', tracks w' r' = tracks (hooked_world declining_hook ready_entity) r')
    /\ trace w' = trace (hooked_world declining_hook ready_entity)
    /\ player w' = player (hooked_world declining_hook ready_entity)
    /\ players w' = players (hooked_world declining_hook ready_entity)
    /\ listeners w' = listeners (hooked_world declining_hook ready_entity).
Proof.
  apply (resolve_ready_noop 0%nat None (hooked_world declining_hook ready_entity)).
  - reflexivity.
  - exact I.
  - intros hook Hh. injection Hh as <-. split; [reflexivity|]. exists false. reflexivity.
Defined.

(** C8, as stated, fails on the code: with a resolver hook that retitles the
    track and reports success, [resolve] on a [readyToPlay] entity returns
    normally and the title has changed. *)
Lemma resolve_ready_noop_counterexample :
  KazagumoTrack.readyToPlay (tracks (hooked_world retitling_hook ready_entity) 0%nat) = true
  /\ KazagumoTrack.title (tracks (hooked_world retitling_hook ready_entity) 0%nat) = "Song"
  /\ (resolve 0%nat None (hooked_world retitling_hook ready_entity)).1 = Return tt
  /\ KazagumoTrack.title
       (tracks (resolve 0%nat None (hooked_world retitling_hook ready_entity)).2 0%nat) = "Other".
Proof. vm_compute. repeat split. Qed.

(** ** The loop mode *)

Lemma World_eta (w : World) :
  mkWorld (kazagumo w) (players w) (player w) (tracks w) (listeners w) (trace w) = w.
Proof. destruct w. reflexivity. Qed.

Lemma setLoop_next (w : World) :
  setLoop JsUndefined w
  = (Return tt, set_player (set_loop (spec_cycle (KazagumoPlayer.loop (player w))) (player w)) w).
Proof. unfold setLoop. run. destruct (KazagumoPlayer.loop (player w)); reflexivity. Qed.

(** C9. [setLoop()] moves the loop mode one step along none, queue, track,
    none, and changes nothing else of the player or of the world; three such
    calls leave the player as it was; [setLoop] with one of the three modes
    leaves the loop field holding that mode, all else equal; with any other
    argument it throws the [KazagumoError] for a bad loop mode and changes
    nothing. *)
Theorem setLoop_cycle (w : World) :
  setLoop JsUndefined w = (Return tt, with_loop (spec_cycle (KazagumoPlayer.loop (player w))) w)
  /\ (KazagumoPlayer.loop (player w) = Loop.none ->
      KazagumoPlayer.loop (player (setLoop JsUndefined w).2) = Loop.queue)
  /\ (KazagumoPlayer.loop (player w) = Loop.queue ->
      KazagumoPlayer.loop (player (setLoop JsUndefined w).2) = Loop.track)
  /\ (KazagumoPlayer.loop (player w) = Loop.track ->
      KazagumoPlayer.loop (player (setLoop JsUndefined w).2) = Loop.none)
  /\ KazagumoPlayer.loop (player (setLoop JsUndefined w).2) <> KazagumoPlayer.loop (player w)
  /\ KazagumoPlayer.loop (player ((setLoop JsUndefined;; setLoop JsUndefined) w).2)
     <> KazagumoPlayer.loop (player w)
  /\ (setLoop JsUndefined;; setLoop JsUndefined;; setLoop JsUndefined) w = (Return tt, w)
  /\ setLoop (JsString "none") w = (Return tt, with_loop Loop.none w)
  /\ KazagumoPlayer.loop (player (setLoop (JsString "none") w).2) = Loop.none
  /\ setLoop (JsString "queue") w = (Return tt, with_loop Loop.queue w)
  /\ KazagumoPlayer.loop (player (setLoop (JsString "queue") w).2) = Loop.queue
  /\ setLoop (JsString "track") w = (Return tt, with_loop Loop.track w)
  /\ KazagumoPlayer.loop (player (setLoop (JsString "track") w).2) = Loop.track
  /\ (forall v,
        v <> JsUndefined -> v <> JsString "none" -> v <> JsString "queue" ->
        v <> JsString "track" ->
        setLoop v w
        = (Throw (KazagumoError 1 "loop must be one of 'none', 'queue', 'track'"), w)).
Proof.
  assert (Hnext : setLoop JsUndefined w
                  = (Return tt, with_loop (spec_cycle (KazagumoPlayer.loop (player w))) w)).
  { rewrite setLoop_next. reflexivity. }
  split; [exact Hnext|]. rewrite Hnext. cbn [snd with_loop player KazagumoPlayer.loop].
  split; [intros ->; reflexivity|]. split; [intros ->; reflexivity|].
  split; [intros ->; reflexivity|].
  split; [destruct (KazagumoPlayer.loop (player w)); discriminate|].
  split.
  { cbv beta delta [mbind M_bind]. rewrite !setLoop_next. cbn.
    destruct (KazagumoPlayer.loop (player w)); discriminate. }
  split.
  { cbv beta delta [mbind M_bind]. rewrite !setLoop_next. f_equal.
    destruct w as [k ps p ts ls tr]. destruct p as [g v t q s pa pl l d vol].
    destruct l; reflexivity. }
  do 6 (split; [reflexivity|]).
  intros v Hu Hn Hq Ht. destruct v as [|b|s|n|]; try reflexivity; [congruence|].
  unfold setLoop.
  destruct (String.eqb_spec s "none") as [->|_]; [congruence|].
  destruct (String.eqb_spec s "queue") as [->|_]; [congruence|].
  destruct (String.eqb_spec s "track") as [->|_]; [congruence|].
  reflexivity.
Qed.

Lemma setLoop_cycle_witness :
  KazagumoPlayer.loop (player (setLoop JsUndefined fresh_world).2) = Loop.queue
  /\ setLoop (JsString "shuffle") fresh_world
     = (Throw (KazagumoError 1 "loop must be one of 'none', 'queue', 'track'"), fresh_world).
Proof.
  destruct (setLoop_cycle fresh_world) as (_ & H1 & _ & _ & _ & _ & _ & _ & _ & _ & _ & _ & _ & H).
  split; [apply H1; reflexivity|]. apply H; discriminate.
Defined.

(** ** Disconnecting and destroying *)

Lemma disconnect_refused (w : World) :
  KazagumoPlayer.state (player w) = DISCONNECTED
  \/ truthy_string (KazagumoPlayer.voiceId (player w)) = false ->
  disconnect w = (Throw (KazagumoError 1 "Player is already disconnected"), w).
Proof.
  intros H. unfold disconnect. run.
  destruct H as [-> | ->]; [reflexivity|].
  rewrite orb_true_r. reflexivity.
Qed.

Lemma pause_true (w : World) :
  exists w',
    pause (JsBool true) w = (Return tt, w')
    /\ kazagumo w' = kazagumo w /\ players w' = players w /\ tracks w' = tracks w
    /\ listeners w' = listeners w
    /\ trace w' = trace w ++ pause_effects (player w)
    /\ KazagumoPlayer.guildId (player w') = KazagumoPlayer.guildId (player w)
    /\ KazagumoPlayer.voiceId (player w') = KazagumoPlayer.voiceId (player w)
    /\ KazagumoPlayer.state (player w') = KazagumoPlayer.state (player w)
    /\ KazagumoPlayer.queue (player w') = KazagumoPlayer.queue (player w).
Proof.
  unfold pause, pause_effects. run.
  destruct (Bool.eqb (KazagumoPlayer.paused (player w)) true
            || (KazagumoQueue.totalSize (KazagumoPlayer.queue (player w)) =? 0)%nat).
  - exists w. rewrite app_nil_r. repeat split.
  - eexists. split; [reflexivity|]. repeat split.
Qed.

Lemma disconnect_ok (w : World) :
  KazagumoPlayer.state (player w) <> DISCONNECTED ->
  truthy_string (KazagumoPlayer.voiceId (player w)) = true ->
  exists w',
    disconnect w = (Return tt, w')
    /\ kazagumo w' = kazagumo w /\ players w' = players w /\ tracks w' = tracks w
    /\ listeners w' = listeners w
    /\ trace w' = trace w ++ pause_effects (player w)
                  ++ [VoiceSend (KazagumoPlayer.guildId (player w)) None false false;
                      Emit (Debug ("Player disconnected; Guild id: "
                                   +:+ KazagumoPlayer.guildId (player w)))]
    /\ KazagumoPlayer.guildId (player w') = KazagumoPlayer.guildId (player w)
    /\ KazagumoPlayer.voiceId (player w') = None
    /\ KazagumoPlayer.state (player w') = DISCONNECTED
    /\ KazagumoPlayer.queue (player w') = KazagumoPlayer.queue (player w).
Proof.
  intros Hs Hv. unfold disconnect. run.
  rewrite (bool_decide_eq_false_2 _ Hs), Hv. cbn [orb negb].
  destruct (pause_true (set_player (set_state DISCONNECTING (player w)) w))
    as (w1 & -> & Hk & Hps & Hts & Hls & Htr & Hg & _ & _ & Hq).
  eexists. split; [reflexivity|].
  cbn [kazagumo players tracks listeners trace player set_player perform
       set_state set_voiceId KazagumoPlayer.guildId KazagumoPlayer.voiceId
       KazagumoPlayer.state KazagumoPlayer.queue] in *.
  rewrite Htr, <- !app_assoc. repeat split; auto.
Qed.

(** C6 (as the code has it). For a player that is not DESTROYING, DESTROYED
    or DISCONNECTED and has a voiceId, the first [destroy] returns normally:
    it disconnects (pause, leave payload), tears down the worker-side player,
    detaches the listeners, deletes the registry entry, ends DESTROYED and
    emits the destroy event; a second [destroy] throws the error of the entry
    check and changes nothing. *)
Theorem destroy_twice (w : World) :
  KazagumoPlayer.state (player w) <> DESTROYING ->
  KazagumoPlayer.state (player w) <> DESTROYED ->
  KazagumoPlayer.state (player w) <> DISCONNECTED ->
  truthy_string (KazagumoPlayer.voiceId (player w)) = true ->
  exists w1,
    destroy w = (Return tt, w1)
    /\ KazagumoPlayer.state (player w1) = DESTROYED
    /\ KazagumoPlayer.voiceId (player w1) = None
    /\ players w1 = delete (KazagumoPlayer.guildId (player w)) (players w)
    /\ players w1 !! KazagumoPlayer.guildId (player w) = None
    /\ listeners w1 = false
    /\ trace w1 = trace w ++ pause_effects (player w)
                  ++ [VoiceSend (KazagumoPlayer.guildId (player w)) None false false;
                      Emit (Debug ("Player disconnected; Guild id: "
                                   +:+ KazagumoPlayer.guildId (player w)));
                      DestroyLavalinkPlayer;
                      RemoveAllListeners;
                      Emit PlayerDestroy;
                      Emit (Debug ("Player destroyed; Guild id: "
                                   +:+ KazagumoPlayer.guildId (player w)))]
    /\ destroy w1 = (Throw already_destroyed, w1).
Proof.
  intros Hing Hed Hdis Hv. unfold destroy at 1. run.
  rewrite (bool_decide_eq_false_2 _ Hing), (bool_decide_eq_false_2 _ Hed). cbn [orb].
  destruct (disconnect_ok w Hdis Hv) as (w' & -> & Hk & Hps & Hts & Hls & Htr & Hg & Hvo & Hst & Hq).
  eexists. split; [reflexivity|].
  cbn [kazagumo players tracks listeners trace player set_player set_players set_listeners
       perform set_state KazagumoPlayer.guildId KazagumoPlayer.voiceId KazagumoPlayer.state].
  rewrite Htr, Hps, <- !app_assoc. repeat split; auto.
  apply lookup_delete_eq.
Qed.

Lemma destroy_twice_witness :
  exists w1,
    destroy busy_world = (Return tt, w1)
    /\ KazagumoPlayer.state (player w1) = DESTROYED
    /\ KazagumoPlayer.voiceId (player w1) = None
    /\ players w1 = delete (KazagumoPlayer.guildId (player busy_world)) (players busy_world)
    /\ players w1 !! KazagumoPlayer.guildId (player busy_world) = None
    /\ listeners w1 = false
    /\ trace w1 = trace busy_world ++ pause_effects (player busy_world)
                  ++ [VoiceSend (KazagumoPlayer.guildId (player busy_world)) None false false;
                      Emit (Debug ("Player disconnected; Guild id: "
                                   +:+ KazagumoPlayer.guildId (player busy_world)));
                      DestroyLavalinkPlayer;
                      RemoveAllListeners;
                      Emit PlayerDestroy;
                      Emit (Debug ("Player destroyed; Guild id: "
                                   +:+ KazagumoPlayer.guildId (player busy_world)))]
    /\ destroy w1 = (Throw already_destroyed, w1).
Proof.
  apply (destroy_twice busy_world).
  - discriminate.
  - discriminate.
  - discriminate.
  - reflexivity.
Defined.

(** C6, as stated, fails on the code: a player that was disconnected is
    neither DESTROYING nor DESTROYED, and its first [destroy] throws. *)
Lemma destroy_twice_counterexample :
  KazagumoPlayer.state (player disconnected_world) = DISCONNECTED
  /\ (destroy disconnected_world).1 = Throw (KazagumoError 1 "Player is already disconnected")
  /\ KazagumoPlayer.state (player (destroy disconnected_world).2) = DISCONNECTED.
Proof. vm_compute. repeat split. Qed.


Lemma destroy_ok (w : World) :
  KazagumoPlayer.state (player w) <> DESTROYING ->
  KazagumoPlayer.state (player w) <> DESTROYED ->
  KazagumoPlayer.state (player w) <> DISCONNECTED ->
  truthy_string (KazagumoPlayer.voiceId (player w)) = true ->
  exists w1,
    destroy w = (Return tt, w1)
    /\ KazagumoPlayer.state (player w1) = DESTROYED
    /\ KazagumoPlayer.queue (player w1) = KazagumoPlayer.queue (player w)
    /\ tracks w1 = tracks w
    /\ kazagumo w1 = kazagumo w
    /\ players w1 = delete (KazagumoPlayer.guildId (player w)) (players w).
Proof.
  intros Hing Hed Hdis Hv. unfold destroy. run.
  rewrite (bool_decide_eq_false_2 _ Hing), (bool_decide_eq_false_2 _ Hed). cbn [orb].
  destruct (disconnect_ok w Hdis Hv)
    as (w' & -> & Hk & Hps & Hts & Hls & Htr & Hg & Hvo & Hst & Hq).
  eexists. split; [reflexivity|].
  cbn [kazagumo players tracks listeners trace player set_player set_players set_listeners
       perform set_state KazagumoPlayer.guildId KazagumoPlayer.voiceId KazagumoPlayer.state
       KazagumoPlayer.queue].
  rewrite Hps. repeat split; auto.
Qed.

(** C10 (as the code has it). For a player that is not yet DESTROYING or
    DESTROYED and whose state is DISCONNECTED or whose voiceId is null,
    [destroy] throws the error of [disconnect] and leaves the world exactly
    as it was: same state, registry entry in place, listeners attached,
    nothing asked of any collaborator; so a further [destroy] is refused the
    same way.  The player is not beyond destroying, though: once
    [setVoiceChannel] has given it a voice channel again, [destroy] returns
    normally and ends DESTROYED. *)
Theorem destroy_disconnected_refused (w : World) :
  KazagumoPlayer.state (player w) <> DESTROYING ->
  KazagumoPlayer.state (player w) <> DESTROYED ->
  KazagumoPlayer.state (player w) = DISCONNECTED
  \/ KazagumoPlayer.voiceId (player w) = None ->
  destroy w = (Throw (KazagumoError 1 "Player is already disconnected"), w)
  /\ KazagumoPlayer.state (player (destroy w).2) = KazagumoPlayer.state (player w)
  /\ players (destroy w).2 = players w
  /\ listeners (destroy w).2 = listeners w
  /\ trace (destroy w).2 = trace w
  /\ destroy (destroy w).2 = (Throw (KazagumoError 1 "Player is already disconnected"), w)
  /\ (forall voiceId, voiceId <> "" ->
        exists w1 w2,
          setVoiceChannel voiceId w = (Return tt, w1)
          /\ destroy w1 = (Return tt, w2)
          /\ KazagumoPlayer.state (player w2) = DESTROYED
          /\ players w2 = delete (KazagumoPlayer.guildId (player w)) (players w)).
Proof.
  intros Hing Hed H.
  assert (E : destroy w = (Throw (KazagumoError 1 "Player is already disconnected"), w)).
  { unfold destroy. run.
    rewrite (bool_decide_eq_false_2 _ Hing), (bool_decide_eq_false_2 _ Hed). cbn [orb].
    rewrite disconnect_refused; [reflexivity|].
    destruct H as [H | H]; [left; exact H | right; rewrite H; reflexivity]. }
  rewrite E. cbn [snd]. do 6 (split; [first [reflexivity | exact E]|]).
  intros voiceId Hne. unfold setVoiceChannel. run.
  destruct (decide (KazagumoPlayer.state (player w) = DESTROYED)); [contradiction|].
  assert (Hv : truthy_string (Some voiceId) = true).
  { unfold truthy_string. apply negb_true_iff, String.eqb_neq, Hne. }
  match goal with |- context [(Return tt, ?w0)] => set (w1 := w0) end.
  destruct (destroy_ok w1) as (w2 & Hd & Hst & _ & _ & _ & Hps);
    try discriminate; [exact Hv|].
  exists w1, w2. split; [reflexivity|]. split; [exact Hd|]. split; [exact Hst|exact Hps].
Qed.

(** C10, as stated, fails on the code for the players that [destroy] itself
    produces: a destroyed player has a null voiceId, and a further [destroy]
    throws the error of the entry check, not the one of [disconnect]; and a
    disconnected player can be destroyed, after a [setVoiceChannel]. *)
Lemma destroy_disconnected_refused_counterexample :
  KazagumoPlayer.voiceId (player destroyed_world) = None
  /\ KazagumoPlayer.state (player destroyed_world) = DESTROYED
  /\ (destroy destroyed_world).1 = Throw (KazagumoError 1 "Player is already destroyed")
  /\ KazagumoPlayer.state (player disconnected_world) = DISCONNECTED
  /\ KazagumoPlayer.voiceId (player disconnected_world) = None
  /\ (destroy (setVoiceChannel "stage" disconnected_world).2).1 = Return tt
  /\ KazagumoPlayer.state (player (destroy (setVoiceChannel "stage" disconnected_world).2).2)
     = DESTROYED.
Proof. vm_compute. repeat split. Qed.

Lemma destroy_disconnected_refused_witness :
  destroy disconnected_world
  = (Throw (KazagumoError 1 "Player is already disconnected"), disconnected_world)
  /\ KazagumoPlayer.state (player (destroy disconnected_world).2)
     = KazagumoPlayer.state (player disconnected_world)
  /\ players (destroy disconnected_world).2 = players disconnected_world
  /\ listeners (destroy disconnected_world).2 = listeners disconnected_world
  /\ trace (destroy disconnected_world).2 = trace disconnected_world
  /\ exists w1 w2,
       setVoiceChannel "stage" disconnected_world = (Return tt, w1)
       /\ destroy w1 = (Return tt, w2)
       /\ KazagumoPlayer.state (player w2) = DESTROYED.
Proof.
  destruct (destroy_disconnected_refused disconnected_world)
    as (H1 & H2 & H3 & H4 & H5 & _ & H7).
  - discriminate.
  - discriminate.
  - left. reflexivity.
  - do 5 (split; [assumption|]).
    destruct (H7 "stage") as (w1 & w2 & Hs & Hd & Hst & _); [discriminate|].
    exists w1, w2. repeat split; assumption.
Defined.


(** ** What a method leaves alone *)

Section Keeps.
Variable R : World -> World -> Prop.
Hypothesis R_refl : forall w, R w w.
Hypothesis R_trans : forall w1 w2 w3, R w1 w2 -> R w2 w3 -> R w1 w3.

Lemma keeps_ret {A} (a : A) : keeps R (mret a).
Proof. intros w. apply R_refl. Qed.

Lemma keeps_throw {A} (e : Exn) : keeps R (throw e : M A).
Proof. intros w. apply R_refl. Qed.

Lemma keeps_get : keeps R get.
Proof. intros w. apply R_refl. Qed.

Lemma keeps_this_player : keeps R this_player.
Proof. intros w. apply R_refl. Qed.

Lemma keeps_deref (r : ref) : keeps R (deref r).
Proof. intros w. apply R_refl. Qed.

Lemma keeps_bind {A B} (m : M A) (f : A -> M B) :
  keeps R m -> (forall a, keeps R (f a)) -> keeps R (m ≫= f).
Proof.
  intros Hm Hf w. unfold mbind, M_bind.
  specialize (Hm w). destruct (m w) as [[a|e] w1]; cbn [snd] in *.
  - eapply R_trans; [exact Hm | apply Hf].
  - exact Hm.
Qed.

Lemma keeps_when (b : bool) (m : M unit) : keeps R m -> keeps R (when b m).
Proof. intros H. destruct b; [exact H | apply keeps_ret]. Qed.
End Keeps.

Lemma same_session_refl (w : World) : same_session w w.
Proof. repeat split. Qed.

Lemma same_session_trans (w1 w2 w3 : World) :
  same_session w1 w2 -> same_session w2 w3 -> same_session w1 w3.
Proof. unfold same_session. intros (-> & -> & ->) (-> & -> & ->). repeat split. Qed.

Lemma store_only_refl (w : World) : store_only w w.
Proof. split; [reflexivity | apply same_session_refl]. Qed.

Lemma store_only_trans (w1 w2 w3 : World) :
  store_only w1 w2 -> store_only w2 w3 -> store_only w1 w3.
Proof.
  intros [H1 S1] [H2 S2]. split; [congruence | eapply same_session_trans; eassumption].
Qed.

Lemma same_but_queue_refl (p : KazagumoPlayer.t) : same_but_queue p p.
Proof. split; [destruct p; reflexivity | reflexivity]. Qed.

Lemma same_but_queue_trans (p1 p2 p3 : KazagumoPlayer.t) :
  same_but_queue p1 p2 -> same_but_queue p2 p3 -> same_but_queue p1 p3.
Proof.
  intros [H1 P1] [H2 P2]. split; [|congruence].
  rewrite H2 at 1. rewrite H1 at 1. reflexivity.
Qed.

Lemma queue_only_refl (w : World) : queue_only w w.
Proof. split; [apply same_but_queue_refl | apply same_session_refl]. Qed.

Lemma queue_only_trans (w1 w2 w3 : World) :
  queue_only w1 w2 -> queue_only w2 w3 -> queue_only w1 w3.
Proof.
  intros [H1 S1] [H2 S2].
  split; [eapply same_but_queue_trans | eapply same_session_trans]; eassumption.
Qed.

Lemma store_only_queue_only (w w' : World) : store_only w w' -> queue_only w w'.
Proof. intros [H S]. split; [rewrite H; apply same_but_queue_refl | exact S]. Qed.

Lemma keeps_assign (r : ref) (t : KazagumoTrack.t) : keeps store_only (assign r t).
Proof. intros w. repeat split. Qed.

Lemma keeps_perform (e : Effect) : keeps store_only (modify (perform e)).
Proof. intros w. repeat split. Qed.

Lemma keeps_emit (e : Event) : keeps store_only (emit e).
Proof. intros w. repeat split. Qed.

(** Walks a method: through binds, into the branches of its tests, and
    closes the leaves with the lemmas above. *)
Ltac keeps_store :=
  repeat first
    [ apply keeps_assign | apply keeps_perform | apply keeps_emit
    | apply (keeps_ret store_only store_only_refl)
    | apply (keeps_throw store_only store_only_refl)
    | apply (keeps_get store_only store_only_refl)
    | apply (keeps_deref store_only store_only_refl)
    | apply (keeps_this_player store_only store_only_refl)
    | apply (keeps_bind store_only store_only_trans); [|intros ?]
    | progress cbv zeta
    | match goal with
      | |- keeps _ (match ?x with _ => _ end) => destruct x
      end ].

Lemma keeps_setKazagumo (r : ref) : keeps store_only (setKazagumo r).
Proof. unfold setKazagumo. keeps_store. Qed.

Lemma keeps_getTrack (r : ref) : keeps store_only (getTrack r).
Proof. unfold getTrack. keeps_store. Qed.

Lemma keeps_resolve (r : ref) (o : option ResolveOptions) : keeps store_only (resolve r o).
Proof. unfold resolve. keeps_store. Qed.



(** ** [play] *)

Lemma keeps_update_queue (f : KazagumoQueue.t -> KazagumoQueue.t) :
  (forall q, KazagumoQueue.previous (f q) = KazagumoQueue.previous q) ->
  keeps queue_only (update_queue f).
Proof.
  intros Hf w. split; [|repeat split]. split; [|apply Hf].
  cbn. destruct (player w). reflexivity.
Qed.

Lemma keeps_store_queue {A} (m : M A) : keeps store_only m -> keeps queue_only m.
Proof. intros H w. apply store_only_queue_only, H. Qed.

Lemma shift_previous (q : KazagumoQueue.t) :
  KazagumoQueue.previous (KazagumoQueue.set_current (KazagumoQueue.shift q).1
                            (KazagumoQueue.shift q).2)
  = KazagumoQueue.previous q.
Proof. unfold KazagumoQueue.shift. destruct (KazagumoQueue.items q); reflexivity. Qed.

Ltac keeps_queue :=
  repeat first
    [ apply keeps_update_queue; intros ?; first [reflexivity | apply shift_previous]
    | apply keeps_store_queue, keeps_setKazagumo
    | apply (keeps_ret queue_only queue_only_refl)
    | apply (keeps_throw queue_only queue_only_refl)
    | apply (keeps_this_player queue_only queue_only_refl)
    | apply (keeps_when queue_only queue_only_refl)
    | apply (keeps_bind queue_only queue_only_trans); [|intros ?]
    | progress cbv zeta
    | match goal with
      | |- keeps _ (match ?x with _ => _ end) => destruct x
      end ].

Lemma keeps_play_select (track : TrackArg) (options : option PlayOptions) :
  keeps queue_only (play_select track options).
Proof. unfold play_select. keeps_queue. Qed.

Lemma keeps_resolve_failed (current : ref) (errorMessage : option string) :
  keeps queue_only (resolve_failed current errorMessage).
Proof.
  unfold resolve_failed.
  apply (keeps_bind queue_only queue_only_trans);
    [apply (keeps_this_player queue_only queue_only_refl)|intros p].
  repeat (apply (keeps_bind queue_only queue_only_trans); [|intros ?]);
    try apply keeps_store_queue, keeps_emit.
  apply keeps_update_queue. reflexivity.
Qed.

Lemma keeps_playTrack (current : ref) (options : PlayOptions) :
  keeps store_only (playTrack current options).
Proof. unfold playTrack. keeps_store. Qed.

(** [play] keeps everything of the player but the pending tracks and
    [current]: state, voiceId, [playing], [paused], the loop mode, [previous]. *)
Lemma play_frame (fuel : nat) :
  forall track options w c w',
    play fuel track options w = Some (c, w') -> queue_only w w'.
Proof.
  induction fuel as [|fuel IH]; intros track options w c w' H; [discriminate|].
  cbn [play] in H.
  pose proof (keeps_play_select track options w) as Hsel.
  destruct (play_select track options w) as [[[current o]|e] w1]; cbn [snd] in Hsel.
  - pose proof (keeps_resolve current None w1) as Hres.
    destruct (resolve current None w1) as [[[]|e] w2]; cbn [snd] in Hres.
    + injection H as <- <-.
      eapply queue_only_trans; [exact Hsel|].
      eapply queue_only_trans; [apply store_only_queue_only, Hres|].
      apply store_only_queue_only, keeps_playTrack.
    + destruct (message e) as [m|e'].
      2:{ injection H as <- <-.
          eapply queue_only_trans; [exact Hsel|apply store_only_queue_only, Hres]. }
      pose proof (keeps_resolve_failed current m w2) as Hfail.
      assert (H3 : queue_only w (resolve_failed current m w2).2).
      { eapply queue_only_trans; [exact Hsel|].
        eapply queue_only_trans; [apply store_only_queue_only, Hres|exact Hfail]. }
      destruct (_ =? 0)%nat.
      * injection H as <- <-.
        eapply queue_only_trans; [exact H3|]. apply store_only_queue_only, keeps_emit.
      * destruct (play fuel NoTrack None _) as [[c4 w4]|] eqn:E; [|discriminate].
        injection H as <- <-.
        eapply queue_only_trans; [exact H3|]. eapply IH, E.
  - injection H as <- <-. exact Hsel.
Qed.


Lemma setKazagumo_returns (r : ref) (w : World) :
  exists t, setKazagumo r w = (Return tt, set_track r t w).
Proof. unfold setKazagumo. run. eexists. reflexivity. Qed.

(** [play], first part, when called without a track while [current] is
    empty and a track is pending: the front of the queue becomes [current]
    and is bound. *)
Lemma play_select_shift (w : World) (x : ref) (rest : list ref) :
  KazagumoPlayer.state (player w) <> DESTROYED ->
  KazagumoQueue.current (KazagumoPlayer.queue (player w)) = None ->
  KazagumoQueue.items (KazagumoPlayer.queue (player w)) = x :: rest ->
  play_select NoTrack None w
  = (Return (x, normalize_options None),
     (setKazagumo x
        (set_player
           (set_queue (KazagumoQueue.mk rest (Some x)
                         (KazagumoQueue.previous (KazagumoPlayer.queue (player w))))
              (player w)) w)).2).
Proof.
  intros Hs Hc Hi. unfold play_select. run.
  destruct (decide (KazagumoPlayer.state (player w) = DESTROYED)) as [|_]; [contradiction|].
  rewrite (bool_decide_eq_false_2 (NoTrack = NotATrack)) by discriminate.
  unfold KazagumoQueue.totalSize, KazagumoQueue.shift.
  rewrite Hc, Hi. cbn [List.length Nat.add Nat.eqb andb]. rewrite andb_false_r.
  run. rewrite Hi. unfold KazagumoQueue.set_current.
  cbn [fst snd KazagumoQueue.current KazagumoQueue.items KazagumoQueue.previous].
  reflexivity.
Qed.

(** The pending tracks grow by one at most in the first part of [play]. *)
Lemma play_select_size (track : TrackArg) (options : option PlayOptions) (w : World) :
  (KazagumoQueue.size (KazagumoPlayer.queue (player (play_select track options w).2))
   <= KazagumoQueue.size (KazagumoPlayer.queue (player w)) + 1)%nat.
Proof.
  assert (Hbound : forall c w0, player (setKazagumo c w0).2 = player w0).
  { intros c w0. apply keeps_setKazagumo. }
  unfold play_select. run.
  destruct (decide (KazagumoPlayer.state (player w) = DESTROYED)); [cbn; lia|].
  destruct track as [|t|].
  - rewrite (bool_decide_eq_false_2 (NoTrack = NotATrack)) by discriminate.
    rewrite (bool_decide_eq_true_2 (NoTrack = NoTrack)) by reflexivity.
    destruct (_ =? 0)%nat; cbn [andb]; [cbn; lia|].
    run. destruct (KazagumoQueue.current (KazagumoPlayer.queue (player w))) as [c|] eqn:Ec.
    + cbn [fst snd]. rewrite ?Ec.
      specialize (Hbound c w). destruct (setKazagumo c w) as [[[]|e] w1];
        cbn [snd] in *; rewrite Hbound; lia.
    + unfold KazagumoQueue.shift, KazagumoQueue.set_current.
      destruct (KazagumoQueue.items (KazagumoPlayer.queue (player w))) as [|x rest] eqn:Ei;
        cbn [fst snd player set_player set_queue KazagumoPlayer.queue KazagumoQueue.current
             KazagumoQueue.items].
      * rewrite ?Ec. cbn. unfold KazagumoQueue.size. rewrite ?Ei. cbn. lia.
      * match goal with |- context [setKazagumo x ?w0] =>
          specialize (Hbound x w0); destruct (setKazagumo x w0) as [[[]|e] w1] end;
          cbn [snd] in *; rewrite Hbound; unfold KazagumoQueue.size; cbn; rewrite ?Ei; cbn; lia.
  - rewrite (bool_decide_eq_false_2 (ATrack t = NotATrack)) by discriminate.
    rewrite (bool_decide_eq_false_2 (ATrack t = NoTrack)) by discriminate.
    cbn [andb]. run.
    destruct (KazagumoQueue.current (KazagumoPlayer.queue (player w))) as [c|] eqn:Ec;
      [destruct (negb _)|]; run;
      cbn [fst snd player set_player set_queue KazagumoPlayer.queue KazagumoQueue.current
           KazagumoQueue.set_current KazagumoQueue.unshift KazagumoQueue.items];
      match goal with |- context [setKazagumo t ?w0] =>
        specialize (Hbound t w0); destruct (setKazagumo t w0) as [[[]|e] w1] end;
      cbn [snd] in *; rewrite Hbound; unfold KazagumoQueue.size; cbn; lia.
  - rewrite (bool_decide_eq_true_2 (NotATrack = NotATrack)) by reflexivity. cbn. lia.
Qed.

Lemma resolve_failed_world (current : ref) (errorMessage : option string) (w : World) :
  (resolve_failed current errorMessage w).1 = Return tt
  /\ trace (resolve_failed current errorMessage w).2
     = trace w ++ [Emit (PlayerResolveError current errorMessage);
                   Emit (Debug ("Player " +:+ KazagumoPlayer.guildId (player w)
                                +:+ " resolve error: "
                                +:+ default "undefined" errorMessage))]
  /\ player (resolve_failed current errorMessage w).2
     = set_queue (KazagumoQueue.set_current None (KazagumoPlayer.queue (player w))) (player w)
  /\ tracks (resolve_failed current errorMessage w).2 = tracks w.
Proof.
  unfold resolve_failed. run. cbn. rewrite <- app_assoc. repeat split.
Qed.

(** The chain of [play] calls that skip unplayable tracks ends: when
    [current] is empty, fuel for the pending tracks is enough. *)
Lemma play_next_total (fuel : nat) :
  forall w,
    KazagumoQueue.current (KazagumoPlayer.queue (player w)) = None ->
    (KazagumoQueue.size (KazagumoPlayer.queue (player w)) <= fuel)%nat ->
    (1 <= fuel)%nat ->
    exists c w', play fuel NoTrack None w = Some (c, w').
Proof.
  induction fuel as [|fuel IH]; intros w Hc Hsize Hpos; [lia|].
  cbn [play].
  pose proof (play_select_size NoTrack None w) as Hgrow.
  destruct (play_select NoTrack None w) as [[[current o]|e] w1] eqn:Esel; [|eauto].
  pose proof (keeps_resolve current None w1) as [Hp _].
  destruct (resolve current None w1) as [[[]|e] w2]; cbn [snd] in *; [eauto|].
  destruct (message e) as [m|e']; [|eauto].
  destruct (resolve_failed_world current m w2) as (_ & _ & Hp3 & _).
  destruct (_ =? 0)%nat eqn:Ez; [destruct (emit PlayerEmpty _); eauto|].
  apply Nat.eqb_neq in Ez.
  (* the selected track came off the queue *)
  assert (Hitems : exists rest,
             KazagumoQueue.items (KazagumoPlayer.queue (player w)) = current :: rest
             /\ KazagumoQueue.items (KazagumoPlayer.queue (player w1)) = rest).
  { destruct (decide (KazagumoPlayer.state (player w) = DESTROYED)) as [Hd|Hd].
    { unfold play_select in Esel. revert Esel. run.
      destruct (decide (KazagumoPlayer.state (player w) = DESTROYED)); [|contradiction].
      discriminate. }
    destruct (KazagumoQueue.items (KazagumoPlayer.queue (player w))) as [|x rest] eqn:Ei.
    { unfold play_select in Esel. revert Esel. run.
      destruct (decide (KazagumoPlayer.state (player w) = DESTROYED)); [contradiction|].
      unfold KazagumoQueue.totalSize. rewrite Hc, Ei. discriminate. }
    rewrite (play_select_shift w x rest Hd Hc Ei) in Esel.
    destruct (setKazagumo_returns x
                (set_player
                   (set_queue (KazagumoQueue.mk rest (Some x)
                                 (KazagumoQueue.previous (KazagumoPlayer.queue (player w))))
                      (player w)) w)) as [t Et].
    rewrite Et in Esel. injection Esel as <- _ <-. exists rest. split; reflexivity. }
  destruct Hitems as (rest & Hi & Hi1).
  assert (Hsz3 : KazagumoQueue.size
                   (KazagumoPlayer.queue (player (resolve_failed current m w2).2))
                 = List.length rest).
  { rewrite Hp3, Hp. unfold KazagumoQueue.size. cbn. rewrite Hi1. reflexivity. }
  rewrite Hsz3 in Ez.
  unfold KazagumoQueue.size in Hsize. rewrite Hi in Hsize. cbn in Hsize.
  destruct (IH (resolve_failed current m w2).2) as (c4 & w4 & E4).
  - rewrite Hp3. reflexivity.
  - rewrite Hsz3. lia.
  - lia.
  - rewrite E4. eauto.
Qed.

(** [play] returns: two more units of fuel than there are pending tracks
    cover every chain of calls. *)
Lemma play_total (fuel : nat) (track : TrackArg) (options : option PlayOptions) (w : World) :
  (KazagumoQueue.size (KazagumoPlayer.queue (player w)) + 2 <= fuel)%nat ->
  exists c w', play fuel track options w = Some (c, w').
Proof.
  intros Hfuel. destruct fuel as [|fuel]; [lia|]. cbn [play].
  pose proof (play_select_size track options w) as Hgrow.
  destruct (play_select track options w) as [[[current o]|e] w1]; [|eauto].
  pose proof (keeps_resolve current None w1) as [Hp _].
  destruct (resolve current None w1) as [[[]|e] w2]; cbn [snd] in *; [eauto|].
  destruct (message e) as [m|e']; [|eauto].
  destruct (resolve_failed_world current m w2) as (_ & _ & Hp3 & _).
  destruct (_ =? 0)%nat eqn:Ez; [destruct (emit PlayerEmpty _); eauto|].
  destruct (play_next_total fuel (resolve_failed current m w2).2) as (c4 & w4 & E4).
  - rewrite Hp3. reflexivity.
  - rewrite Hp3, Hp. cbn. unfold KazagumoQueue.size in *. cbn. lia.
  - lia.
  - rewrite E4. eauto.
Qed.


(** ** What [play] adds to the trace *)

Lemma adds_refl (P : Effect -> bool) (w : World) : adds P w w.
Proof. exists []. rewrite app_nil_r. split; reflexivity. Qed.

Lemma adds_trans (P : Effect -> bool) (w1 w2 w3 : World) :
  adds P w1 w2 -> adds P w2 w3 -> adds P w1 w3.
Proof.
  intros (l1 & E1 & H1) (l2 & E2 & H2). exists (l1 ++ l2).
  rewrite E2, E1, <- app_assoc, forallb_app, H1, H2. split; reflexivity.
Qed.

Lemma adds_weaken (P Q : Effect -> bool) (w w' : World) :
  (forall e, P e = true -> Q e = true) -> adds P w w' -> adds Q w w'.
Proof.
  intros HPQ (l & E & H). exists l. split; [exact E|].
  apply forallb_forall. intros e He. apply HPQ.
  rewrite forallb_forall in H. apply H, He.
Qed.

Lemma keeps_adds_assign (P : Effect -> bool) (r : ref) (t : KazagumoTrack.t) :
  keeps (adds P) (assign r t).
Proof. intros w. exists []. cbn. rewrite app_nil_r. split; reflexivity. Qed.

Lemma keeps_adds_perform (P : Effect -> bool) (e : Effect) :
  P e = true -> keeps (adds P) (modify (perform e)).
Proof. intros H w. exists [e]. cbn. rewrite H. split; reflexivity. Qed.

Lemma keeps_adds_update_player (P : Effect -> bool) (f : KazagumoPlayer.t -> KazagumoPlayer.t) :
  keeps (adds P) (update_player f).
Proof. intros w. exists []. cbn. rewrite app_nil_r. split; reflexivity. Qed.

Ltac keeps_adds P :=
  repeat first
    [ apply keeps_adds_assign
    | apply keeps_adds_update_player
    | apply keeps_adds_perform; reflexivity
    | apply (keeps_ret (adds P) (adds_refl P))
    | apply (keeps_throw (adds P) (adds_refl P))
    | apply (keeps_get (adds P) (adds_refl P))
    | apply (keeps_deref (adds P) (adds_refl P))
    | apply (keeps_this_player (adds P) (adds_refl P))
    | apply (keeps_when (adds P) (adds_refl P))
    | apply (keeps_bind (adds P) (adds_trans P)); [|intros ?]
    | progress cbv zeta
    | match goal with
      | |- keeps _ (match ?x with _ => _ end) => destruct x
      end ].

Lemma resolve_adds (r : ref) (o : option ResolveOptions) : keeps (adds resolve_effect) (resolve r o).
Proof. unfold resolve. keeps_adds resolve_effect. Qed.

Lemma setKazagumo_adds (P : Effect -> bool) (r : ref) : keeps (adds P) (setKazagumo r).
Proof. unfold setKazagumo. keeps_adds P. Qed.

Lemma play_select_adds (P : Effect -> bool) (track : TrackArg) (options : option PlayOptions) :
  keeps (adds P) (play_select track options).
Proof. unfold play_select. keeps_adds P; apply setKazagumo_adds. Qed.



Lemma count_app (f : Effect -> bool) (l1 l2 : list Effect) :
  count f (l1 ++ l2) = (count f l1 + count f l2)%nat.
Proof. unfold count. rewrite List.filter_app, length_app. reflexivity. Qed.













(** ** The [end] notification *)

Lemma load_failed_reasons (reason : string) :
  reason = "LOAD_FAILED" \/ reason = "CLEAN_UP" ->
  String.eqb reason "REPLACED" = false
  /\ bool_decide (reason ∈ ["LOAD_FAILED"; "CLEAN_UP"]) = true.
Proof. intros [-> | ->]; split; reflexivity. Qed.






Lemma default_reason (reason : string) :
  reason <> "REPLACED" -> reason <> "LOAD_FAILED" -> reason <> "CLEAN_UP" ->
  String.eqb reason "REPLACED" = false
  /\ bool_decide (reason ∈ ["LOAD_FAILED"; "CLEAN_UP"]) = false.
Proof.
  intros H1 H2 H3. split; [apply String.eqb_neq, H1|].
  apply bool_decide_eq_false_2. rewrite !elem_of_cons, elem_of_nil. tauto.
Qed.





(** ** The terminal state *)

Lemma pause_keeps_state (v : JsValue) (w : World) :
  KazagumoPlayer.state (player (pause v w).2) = KazagumoPlayer.state (player w)
  /\ KazagumoPlayer.voiceId (player (pause v w).2) = KazagumoPlayer.voiceId (player w).
Proof.
  unfold pause. destruct v as [|b|s|n|]; try (split; reflexivity).
  run. destruct (_ || _); split; reflexivity.
Qed.

Lemma setLoop_keeps_state (v : JsValue) (w : World) :
  KazagumoPlayer.state (player (setLoop v w).2) = KazagumoPlayer.state (player w)
  /\ KazagumoPlayer.voiceId (player (setLoop v w).2) = KazagumoPlayer.voiceId (player w).
Proof.
  unfold setLoop. destruct v as [|b|s|n|]; try (split; reflexivity).
  - run. destruct (KazagumoPlayer.loop (player w)); split; reflexivity.
  - repeat destruct (String.eqb s _); split; reflexivity.
Qed.

Lemma guarded_call_refused (fuel : nat) (op : Op) (w : World) :
  KazagumoPlayer.state (player w) = DESTROYED ->
  guarded op = true ->
  call (S fuel) op w = Some (Throw already_destroyed, w).
Proof.
  intros Hs Hg.
  destruct op as [v|s|s|v|t o| |v| | |]; try discriminate Hg; cbn [call lift play];
    unfold setTextChannel, setVoiceChannel, play_select, skip, setVolume, connect, destroy;
    run; rewrite Hs; reflexivity.
Qed.

Lemma notify_keeps_destroyed (fuel : nat) (n : Notification) (w : World) :
  KazagumoPlayer.state (player w) = DESTROYED ->
  exists c w',
    notify fuel n w = Some (c, w')
    /\ KazagumoPlayer.state (player w') = DESTROYED
    /\ KazagumoPlayer.voiceId (player w') = KazagumoPlayer.voiceId (player w).
Proof.
  intros Hs. unfold notify. destruct (listeners w); [|eauto].
  destruct n; cbn [lift];
    unfold on_start, on_end, on_closed, on_exception, on_update, on_stuck, on_resumed;
    run; rewrite ?Hs; cbn; eauto.
Qed.

(** What does hold of a player whose state is DESTROYED: every method that
    begins with the check of that state ([setTextChannel], [setVoiceChannel],
    [play], [skip], [setVolume], [connect], [destroy]) throws the
    already-destroyed error and changes nothing; and, the voiceId being null
    as [destroy] leaves it, every method ([pause], [setLoop] and [disconnect]
    among them) and every notification returns with the state still
    DESTROYED. *)
Theorem destroyed_is_terminal (fuel : nat) (w : World) :
  KazagumoPlayer.state (player w) = DESTROYED ->
  (forall op, guarded op = true ->
     call (S fuel) op w = Some (Throw already_destroyed, w))
  /\ (KazagumoPlayer.voiceId (player w) = None ->
      forall op, exists c w',
        call (S fuel) op w = Some (c, w')
        /\ KazagumoPlayer.state (player w') = DESTROYED
        /\ KazagumoPlayer.voiceId (player w') = None)
  /\ (forall n, exists c w',
        notify (S fuel) n w = Some (c, w')
        /\ KazagumoPlayer.state (player w') = DESTROYED
        /\ KazagumoPlayer.voiceId (player w') = KazagumoPlayer.voiceId (player w)).
Proof.
  intros Hs. split; [|split].
  - intros op Hg. apply guarded_call_refused; assumption.
  - intros Hv op. destruct (guarded op) eqn:Hg.
    + rewrite (guarded_call_refused fuel op w Hs Hg). eauto.
    + destruct op as [v|s|s|v|t o| |v| | |]; try discriminate Hg; cbn [call]; unfold lift.
      * destruct (pause_keeps_state v w) as [H1 H2].
        destruct (pause v w) as [c w']. cbn [snd] in *. exists c, w'.
        repeat split; congruence.
      * destruct (setLoop_keeps_state v w) as [H1 H2].
        destruct (setLoop v w) as [c w']. cbn [snd] in *. exists c, w'.
        repeat split; congruence.
      * rewrite disconnect_refused by (right; rewrite Hv; reflexivity). eauto.
  - intros n. apply notify_keeps_destroyed, Hs.
Qed.

Lemma destroyed_is_terminal_witness :
  call 1 (OpPlay NoTrack None) destroyed_busy_world
  = Some (Throw already_destroyed, destroyed_busy_world).
Proof.
  apply (proj1 (destroyed_is_terminal 0 destroyed_busy_world eq_refl) (OpPlay NoTrack None)).
  reflexivity.
Defined.

(** C1. Every state-changing method of a DESTROYED player is to fail, and
    six of them do, by the check they begin with; [pause] and [setLoop] lack
    that check.  On a destroyed player that still holds tracks,
    [pause(false)] returns normally, sets [playing] and reaches the worker
    connection; [setLoop()] returns normally and moves the loop mode.  The
    state itself stays DESTROYED. *)
Lemma pause_setLoop_ignore_destroyed :
  KazagumoPlayer.state (player destroyed_busy_world) = DESTROYED
  /\ KazagumoPlayer.playing (player destroyed_busy_world) = false
  /\ pause (JsBool false) destroyed_busy_world
     = (Return tt,
        perform (SetPaused false)
          (set_player
             (set_playing true (set_paused false (player destroyed_busy_world)))
             destroyed_busy_world))
  /\ KazagumoPlayer.loop (player destroyed_busy_world) = Loop.none
  /\ setLoop JsUndefined destroyed_busy_world
     = (Return tt, set_player (set_loop Loop.queue (player destroyed_busy_world))
                     destroyed_busy_world)
  /\ setTextChannel "text" destroyed_busy_world = (Throw already_destroyed, destroyed_busy_world)
  /\ KazagumoPlayer.state (player (pause (JsBool false) destroyed_busy_world).2) = DESTROYED
  /\ KazagumoPlayer.state (player (setLoop JsUndefined destroyed_busy_world).2) = DESTROYED.
Proof. vm_compute. repeat split. Qed.

(** ** Every player that gets destroyed is inert *)

Ltac ran H :=
  first
    [ injection H as <- <-
    | injection H as H; apply (f_equal snd) in H; cbn [snd] in H;
      match type of H with _ = ?w' => subst w' end ].

Lemma call_state (fuel : nat) (op : Op) (w : World) (c : Completion unit) (w' : World) :
  call fuel op w = Some (c, w') ->
  (KazagumoPlayer.state (player w') = KazagumoPlayer.state (player w)
   /\ KazagumoPlayer.voiceId (player w') = KazagumoPlayer.voiceId (player w)
   /\ listeners w' = listeners w)
  \/ KazagumoPlayer.state (player w') <> DESTROYED
  \/ (KazagumoPlayer.voiceId (player w') = None /\ listeners w' = false).
Proof.
  intros H. destruct op as [v|s|s|v|t o| |v| | |]; cbn [call] in H; unfold lift in H.
  - ran H. left. destruct (pause_keeps_state v w) as [H1 H2].
    split; [exact H1|split; [exact H2|]].
    unfold pause. destruct v as [|b|s|n|]; try reflexivity. run. destruct (_ || _); reflexivity.
  - ran H. unfold setTextChannel. run.
    destruct (decide _); left; repeat split.
  - ran H. unfold setVoiceChannel. run.
    destruct (decide _); [left; repeat split | right; left; discriminate].
  - ran H. left. destruct (setLoop_keeps_state v w) as [H1 H2].
    split; [exact H1|split; [exact H2|]].
    unfold setLoop. destruct v as [|b|s|n|]; try reflexivity.
    + run. destruct (KazagumoPlayer.loop (player w)); reflexivity.
    + repeat destruct (String.eqb s _); reflexivity.
  - left. destruct (play_frame fuel t o w c w' H) as [[Hp _] (_ & _ & Hl)].
    rewrite Hp. repeat split. exact Hl.
  - ran H. unfold skip. run. destruct (decide _); left; repeat split.
  - ran H. unfold setVolume. run.
    destruct (decide _); [|destruct v]; left; repeat split.
  - ran H. unfold connect. run.
    destruct (decide _); [left; repeat split|].
    destruct (_ || _); [left; repeat split | right; left; discriminate].
  - ran H. unfold disconnect. run.
    destruct (_ || _); [left; repeat split|].
    right. left.
    destruct (pause_true (set_player (set_state DISCONNECTING (player w)) w))
      as (w1 & -> & _). discriminate.
  - ran H. unfold destroy. run.
    destruct (_ || _); [left; repeat split|].
    destruct (decide (KazagumoPlayer.state (player w) = DISCONNECTED)) as [Hd|Hd].
    { rewrite disconnect_refused by (left; exact Hd). left. repeat split. }
    destruct (truthy_string (KazagumoPlayer.voiceId (player w))) eqn:Hv.
    + destruct (disconnect_ok w Hd Hv) as (w1 & -> & _ & _ & _ & _ & _ & _ & Hvo & _).
      right. right. split; [exact Hvo|reflexivity].
    + rewrite disconnect_refused by (right; exact Hv). left. repeat split.
Qed.

Lemma notify_state (fuel : nat) (n : Notification) (w : World) (c : Completion unit) (w' : World) :
  notify fuel n w = Some (c, w') ->
  KazagumoPlayer.state (player w') = KazagumoPlayer.state (player w)
  /\ KazagumoPlayer.voiceId (player w') = KazagumoPlayer.voiceId (player w)
  /\ listeners w' = listeners w.
Proof.
  unfold notify. intros H. destruct (listeners w) eqn:Hl; [|injection H as <- <-; auto].
  rewrite <- Hl.
  destruct n; unfold lift in H; try (ran H; repeat split; fail).
  unfold on_end in H.
  destruct (bool_decide _ || bool_decide _); [ran H; repeat split|].
  destruct (String.eqb reason "REPLACED"); [ran H; repeat split|].
  destruct (bool_decide (reason ∈ _)).
  - destruct (_ =? 0)%nat; [ran H; repeat split|].
    match type of H with context [play ?f ?t ?o ?w0] =>
      destruct (play f t o w0) as [[c0 w0']|] eqn:E; [|discriminate H];
      destruct (play_frame f t o w0 c0 w0' E) as [[Hp _] (_ & _ & Hls)]
    end.
    injection H as <- <-. rewrite Hp, Hls. repeat split.
  - destruct (_ =? 0)%nat.
    + ran H. destruct (KazagumoQueue.current _);
        [destruct (KazagumoPlayer.loop (player w))|]; repeat split.
    + match type of H with context [play ?f ?t ?o ?w0] =>
        destruct (play f t o w0) as [[c0 w0']|] eqn:E; [|discriminate H];
        destruct (play_frame f t o w0 c0 w0' E) as [[Hp _] (_ & _ & Hls)]
      end.
      injection H as <- <-. rewrite Hp, Hls.
      destruct (KazagumoQueue.current _);
        [destruct (KazagumoPlayer.loop (player w))|]; repeat split.
Qed.

Lemma reachable_destroyed_inert (w : World) : Reachable w -> destroyed_inert w.
Proof.
  induction 1 as [k ps g v t d store | w fuel op c w' _ IH Hc | w fuel n c w' _ IH Hn
                 | w q _ IH | w r t _ IH]; unfold destroyed_inert in *.
  - discriminate.
  - destruct (call_state fuel op w c w' Hc) as [(Hs & Hv & Hl) | [Hne | Hin]].
    + rewrite Hs, Hv, Hl. exact IH.
    + intros Hd. contradiction.
    + intros _. exact Hin.
  - destruct (notify_state fuel n w c w' Hn) as (Hs & Hv & Hl).
    rewrite Hs, Hv, Hl. exact IH.
  - exact IH.
  - exact IH.
Qed.

(** So, once destroyed, a player no longer hears the worker at all. *)
Lemma destroyed_ignores_notifications (fuel : nat) (n : Notification) (w : World) :
  Reachable w ->
  KazagumoPlayer.state (player w) = DESTROYED ->
  notify fuel n w = Some (Return tt, w).
Proof.
  intros Hr Hd. destruct (reachable_destroyed_inert w Hr Hd) as [_ Hl].
  unfold notify. rewrite Hl. reflexivity.
Qed.

(** * Further properties of the code *)

(** ** Building a track and reading it back *)

(** X1. [getRaw] of a freshly built track gives the raw record back, but for
    the thumbnail of a youtube track with an identifier, which the
    constructor replaces; and building a track from what [getRaw] returns
    builds the same track again. *)
Theorem getRaw_new_track (S : list string) (raw : RawTrack.t) (requester : option string) :
  getRaw (new_track S raw requester)
  = RawTrack.mk (RawTrack.track raw)
      (RawTrack.mkInfo (RawTrack.title (RawTrack.info raw)) (RawTrack.uri (RawTrack.info raw))
         (RawTrack.identifier (RawTrack.info raw)) (RawTrack.author (RawTrack.info raw))
         (RawTrack.sourceName (RawTrack.info raw)) (RawTrack.isSeekable (RawTrack.info raw))
         (RawTrack.isStream (RawTrack.info raw)) (RawTrack.length (RawTrack.info raw))
         (RawTrack.position (RawTrack.info raw))
         (KazagumoTrack.thumbnail (new_track S raw requester)))
  /\ new_track S (getRaw (new_track S raw requester)) requester = new_track S raw requester
  /\ (if String.eqb (RawTrack.sourceName (RawTrack.info raw)) "youtube"
         && negb (String.eqb (RawTrack.identifier (RawTrack.info raw)) "")
      then KazagumoTrack.thumbnail (new_track S raw requester)
           = Some ("https://img.youtube.com/vi/" +:+ RawTrack.identifier (RawTrack.info raw)
                   +:+ "/hqdefault.jpg")
      else getRaw (new_track S raw requester) = raw).
Proof.
  destruct raw as [t [ti u i a s sk st l p th]]. unfold new_track, getRaw. cbn.
  split; [reflexivity|]. split.
  - destruct (String.eqb s "youtube" && negb (String.eqb i "")); reflexivity.
  - destruct (String.eqb s "youtube" && negb (String.eqb i "")); reflexivity.
Qed.

Lemma pick_member (this : KazagumoTrack.t) (results : list Track.t) (t : Track.t) :
  pick this results = Some t -> t ∈ results.
Proof.
  unfold pick.
  assert (Hfind : forall f x, find f results = Some x -> x ∈ results).
  { intros f x H. apply find_some in H as [H _]. apply list_elem_of_In. exact H. }
  destruct (truthy_string (KazagumoTrack.author this)).
  - destruct (find _ results) eqn:E1; [intros [= <-]; eauto|].
    destruct (truthy_number (KazagumoTrack.length this)).
    + destruct (find (sameDuration _) results) eqn:E2; [intros [= <-]; eauto|].
      destruct results; [discriminate|]. intros [= <-]. constructor.
    + destruct results; [discriminate|]. intros [= <-]. constructor.
  - destruct (truthy_number (KazagumoTrack.length this)).
    + destruct (find (sameDuration _) results) eqn:E2; [intros [= <-]; eauto|].
      destruct results; [discriminate|]. intros [= <-]. constructor.
    + destruct results; [discriminate|]. intros [= <-]. constructor.
Qed.

Lemma pick_some (this : KazagumoTrack.t) (results : list Track.t) :
  results <> [] -> exists t, pick this results = Some t.
Proof.
  intros Hne. unfold pick.
  destruct (if truthy_string _ then _ else _); [eauto|].
  destruct (if truthy_number _ then _ else _); [eauto|].
  destruct results; [congruence|]. cbn. eauto.
Qed.

(** X2. A track that was never bound to a session (any freshly built track
    is one) is not [readyToPlay], and [resolve] and [getTrack] throw on it
    without changing anything or asking anything of a node. *)
Theorem unbound_track_cannot_resolve (S : list string) (raw : RawTrack.t)
    (requester : option string) (r : ref) (o : option ResolveOptions) (w : World) :
  tracks w r = new_track S raw requester ->
  KazagumoTrack.readyToPlay (tracks w r) = false
  /\ resolve r o w = (Throw (KazagumoError 1 "Kazagumo is not set"), w)
  /\ getTrack r w = (Throw (Error "Kazagumo is not set"), w).
Proof.
  intros H. unfold resolve, getTrack, KazagumoTrack.readyToPlay. run. rewrite H. cbn.
  repeat split.
Qed.

Lemma unbound_track_cannot_resolve_witness :
  KazagumoTrack.readyToPlay (tracks unbound_world 0%nat) = false
  /\ resolve 0%nat None unbound_world = (Throw (KazagumoError 1 "Kazagumo is not set"), unbound_world)
  /\ getTrack 0%nat unbound_world = (Throw (Error "Kazagumo is not set"), unbound_world).
Proof.
  apply (unbound_track_cannot_resolve supported_sources raw_spotify None 0%nat None unbound_world).
  reflexivity.
Defined.

(** ** Binding *)

(** X3. [setKazagumo] binds the track and touches nothing but that track's
    session link and thumbnail: what [getRaw] reads is as before but for the
    thumbnail, [realUri] and [resolvedBySource] are kept, every other track,
    the player and the trace are as they were; and binding twice is binding
    once. *)
Theorem setKazagumo_binds_once (r : ref) (w : World) :
  (setKazagumo r w).1 = Return tt
  /\ KazagumoTrack.kazagumo (tracks (setKazagumo r w).2 r) = Some TheKazagumo
  /\ getRaw (tracks (setKazagumo r w).2 r)
     = RawTrack.mk (KazagumoTrack.track (tracks w r))
         (RawTrack.mkInfo (KazagumoTrack.title (tracks w r)) (KazagumoTrack.uri (tracks w r))
            (KazagumoTrack.identifier (tracks w r)) (KazagumoTrack.author (tracks w r))
            (KazagumoTrack.sourceName (tracks w r)) (KazagumoTrack.isSeekable (tracks w r))
            (KazagumoTrack.isStream (tracks w r)) (KazagumoTrack.length (tracks w r))
            (KazagumoTrack.position (tracks w r))
            (KazagumoTrack.thumbnail (tracks (setKazagumo r w).2 r)))
  /\ KazagumoTrack.realUri (tracks (setKazagumo r w).2 r) = KazagumoTrack.realUri (tracks w r)
  /\ KazagumoTrack.resolvedBySource (tracks (setKazagumo r w).2 r)
     = KazagumoTrack.resolvedBySource (tracks w r)
  /\ others_untouched r w (setKazagumo r w).2
  /\ player (setKazagumo r w).2 = player w
  /\ trace (setKazagumo r w).2 = trace w
  /\ (forall r', tracks (setKazagumo r (setKazagumo r w).2).2 r' = tracks (setKazagumo r w).2 r').
Proof.
  unfold setKazagumo, others_untouched. run. cbn [tracks set_track player trace kazagumo].
  rewrite !fn_lookup_insert. cbn.
  repeat split.
  - intros r' Hne. apply fn_lookup_insert_ne. congruence.
  - intros r'. destruct (decide (r = r')) as [<-|Hne].
    + rewrite !fn_lookup_insert. cbn.
      destruct (String.eqb _ "youtube" && _); reflexivity.
    + rewrite !fn_lookup_insert_ne by exact Hne. reflexivity.
Qed.

(** ** Resolving by search *)

Lemma pick_ext (t1 t2 : KazagumoTrack.t) (results : list Track.t) :
  KazagumoTrack.author t1 = KazagumoTrack.author t2 ->
  KazagumoTrack.title t1 = KazagumoTrack.title t2 ->
  KazagumoTrack.length t1 = KazagumoTrack.length t2 ->
  pick t1 results = pick t2 results.
Proof. intros Ha Ht Hl. unfold pick. rewrite Ha, Ht, Hl. reflexivity. Qed.

Lemma resolve_by_search (r : ref) (o : option ResolveOptions) (w : World) (n : Node)
    (results : list Track.t) :
  KazagumoTrack.kazagumo (tracks w r) <> None ->
  trackResolver (Options (kazagumo w)) = None ->
  getLeastUsedNode (kazagumo w) = Some n ->
  (forall q, rest_resolve n q = Return (Some results)) ->
  results <> [] ->
  negb (forced o) && KazagumoTrack.readyToPlay (tracks w r) = false ->
  resolveSource w (tracks w r) && KazagumoTrack.resolvedBySource (tracks w r) = false ->
  exists t q w',
    pick (tracks w r) results = Some t
    /\ resolve r o w = (Return tt, w')
    /\ trace w'
       = trace w ++ [Emit (Debug ("Resolving " +:+ KazagumoTrack.sourceName (tracks w r)
                                  +:+ " track " +:+ KazagumoTrack.title (tracks w r)
                                  +:+ "; Source: " +:+ KazagumoTrack.sourceName (tracks w r)));
                     RestResolve q]
    /\ tracks w' r
       = (if overwriting o || resolveSource w (tracks w r)
          then KazagumoTrack.mk (KazagumoTrack.kazagumo (tracks w r))
                 (KazagumoTrack.requester (tracks w r)) (Track.track t)
                 (KazagumoTrack.sourceName (tracks w r)) (Track.title (Track.info t))
                 (Track.uri (Track.info t)) (Track.identifier (Track.info t))
                 (Track.isSeekable (Track.info t)) (Track.isStream (Track.info t))
                 (Some (Track.author (Track.info t))) (Some (Track.length (Track.info t)))
                 (KazagumoTrack.position (tracks w r)) (KazagumoTrack.thumbnail (tracks w r))
                 (Some (Track.uri (Track.info t)))
                 (resolveSource w (tracks w r) || KazagumoTrack.resolvedBySource (tracks w r))
          else KazagumoTrack.mk (KazagumoTrack.kazagumo (tracks w r))
                 (KazagumoTrack.requester (tracks w r)) (Track.track t)
                 (KazagumoTrack.sourceName (tracks w r)) (KazagumoTrack.title (tracks w r))
                 (KazagumoTrack.uri (tracks w r)) (KazagumoTrack.identifier (tracks w r))
                 (KazagumoTrack.isSeekable (tracks w r)) (KazagumoTrack.isStream (tracks w r))
                 (KazagumoTrack.author (tracks w r)) (Some (Track.length (Track.info t)))
                 (KazagumoTrack.position (tracks w r)) (KazagumoTrack.thumbnail (tracks w r))
                 (Some (Track.uri (Track.info t)))
                 (resolveSource w (tracks w r) || KazagumoTrack.resolvedBySource (tracks w r)))
    /\ others_untouched r w w'
    /\ player w' = player w
    /\ kazagumo w' = kazagumo w.
Proof.
  intros Hk Hh Hn Hr Hne Hgo Hns.
  destruct (pick_some (tracks w r) results Hne) as [t Ht].
  destruct (KazagumoTrack.kazagumo (tracks w r)) as [k|] eqn:Ek; [clear Hk|congruence].
  unfold resolve. run. rewrite Ek, Hh. run.
  unfold forced, resolveSource in *. rewrite Hgo. rewrite Hns.
  unfold getTrack. run. cbn [tracks set_track perform kazagumo].
  rewrite fn_lookup_insert. cbn [KazagumoTrack.kazagumo]. rewrite Ek, Hn. run.
  rewrite Hr. destruct results as [|x results]; [congruence|].
  match goal with |- context [pick ?this' ?l] =>
    rewrite (pick_ext this' (tracks w r) l) by reflexivity end.
  rewrite Ht. run.
  unfold overwriting.
  assert (Hother : forall t1 t2 e1 e2,
             others_untouched r w
               (set_track r t2 (perform e2 (perform e1 (set_track r t1 w))))).
  { intros t1 t2 e1 e2 r' Hne'. cbn [tracks set_track perform].
    rewrite !fn_lookup_insert_ne by congruence. reflexivity. }
  destruct (_ || _) eqn:Eo; exists t; eexists; eexists; (split; [reflexivity|]);
    (split; [reflexivity|]);
    cbn [trace tracks set_track perform player kazagumo];
    rewrite <- app_assoc, fn_lookup_insert; cbn [app];
    (split; [reflexivity|]);
    (split; [f_equal; destruct (match sourceForceResolve _ with _ => _ end); reflexivity|]);
    (split; [apply Hother|split; reflexivity]).
Qed.

(** X4. When [resolve] goes to search (no resolver hook, the track not
    short-circuited, a node that answers with results), it returns normally
    after exactly one search; the track takes its playable identifier,
    [realUri] and length from one of the results; it takes title, author,
    identifier, uri and the two flags from that result exactly when
    [overwrite] is set or its source is one the session always resolves by
    search; its source, requester, position, thumbnail and session link stay,
    and so does every other track. *)
Theorem resolve_adopts_search_result (r : ref) (o : option ResolveOptions) (w : World)
    (n : Node) (results : list Track.t) :
  KazagumoTrack.kazagumo (tracks w r) <> None ->
  trackResolver (Options (kazagumo w)) = None ->
  getLeastUsedNode (kazagumo w) = Some n ->
  (forall q, rest_resolve n q = Return (Some results)) ->
  results <> [] ->
  negb (forced o) && KazagumoTrack.readyToPlay (tracks w r) = false ->
  resolveSource w (tracks w r) && KazagumoTrack.resolvedBySource (tracks w r) = false ->
  exists t w',
    t ∈ results
    /\ resolve r o w = (Return tt, w')
    /\ count is_search (trace w') = (count is_search (trace w) + 1)%nat
    /\ KazagumoTrack.track (tracks w' r) = Track.track t
    /\ KazagumoTrack.realUri (tracks w' r) = Some (Track.uri (Track.info t))
    /\ KazagumoTrack.length (tracks w' r) = Some (Track.length (Track.info t))
    /\ (if overwriting o || resolveSource w (tracks w r)
        then KazagumoTrack.title (tracks w' r) = Track.title (Track.info t)
             /\ KazagumoTrack.author (tracks w' r) = Some (Track.author (Track.info t))
             /\ KazagumoTrack.identifier (tracks w' r) = Track.identifier (Track.info t)
             /\ KazagumoTrack.uri (tracks w' r) = Track.uri (Track.info t)
             /\ KazagumoTrack.isSeekable (tracks w' r) = Track.isSeekable (Track.info t)
             /\ KazagumoTrack.isStream (tracks w' r) = Track.isStream (Track.info t)
        else KazagumoTrack.title (tracks w' r) = KazagumoTrack.title (tracks w r)
             /\ KazagumoTrack.author (tracks w' r) = KazagumoTrack.author (tracks w r)
             /\ KazagumoTrack.identifier (tracks w' r) = KazagumoTrack.identifier (tracks w r)
             /\ KazagumoTrack.uri (tracks w' r) = KazagumoTrack.uri (tracks w r)
             /\ KazagumoTrack.isSeekable (tracks w' r) = KazagumoTrack.isSeekable (tracks w r)
             /\ KazagumoTrack.isStream (tracks w' r) = KazagumoTrack.isStream (tracks w r))
    /\ same_identity (tracks w r) (tracks w' r)
    /\ KazagumoTrack.thumbnail (tracks w' r) = KazagumoTrack.thumbnail (tracks w r)
    /\ KazagumoTrack.kazagumo (tracks w' r) = KazagumoTrack.kazagumo (tracks w r)
    /\ others_untouched r w w'
    /\ player w' = player w.
Proof.
  intros Hk Hh Hn Hr Hne Hgo Hns.
  destruct (resolve_by_search r o w n results Hk Hh Hn Hr Hne Hgo Hns)
    as (t & q & w' & Ht & Hres & Htr & Hnew & Hoth & Hp & _).
  exists t, w'. split; [eapply pick_member, Ht|]. split; [exact Hres|].
  split; [rewrite Htr, count_app; reflexivity|].
  rewrite Hnew. unfold same_identity.
  destruct (overwriting o || resolveSource w (tracks w r)); cbn; repeat split; assumption.
Qed.

Lemma resolve_adopts_search_result_witness :
  exists t w',
    t ∈ results_complete
    /\ resolve 0%nat None (searching_world entity_X_Y results_complete) = (Return tt, w')
    /\ KazagumoTrack.track (tracks w' 0%nat) = Track.track t
    /\ KazagumoTrack.title (tracks w' 0%nat) = "Y".
Proof.
  destruct (resolve_adopts_search_result 0%nat None
              (searching_world entity_X_Y results_complete)
              (node_answering results_complete) results_complete)
    as (t & w' & Hin & Hres & _ & Htrack & _ & _ & Hkeep & _).
  - discriminate.
  - reflexivity.
  - reflexivity.
  - intros q. reflexivity.
  - discriminate.
  - reflexivity.
  - reflexivity.
  - exists t, w'. repeat split; try assumption. apply Hkeep.
Defined.

Lemma resolve_short_circuit (r : ref) (o : option ResolveOptions) (w : World) :
  trackResolver (Options (kazagumo w)) = None ->
  negb (forced o) && KazagumoTrack.readyToPlay (tracks w r) = true ->
  resolve r o w = (Return tt, w).
Proof.
  intros Hh Hgo. unfold resolve. run.
  destruct (KazagumoTrack.kazagumo (tracks w r)) eqn:Ek.
  - rewrite Hh. run. unfold forced in Hgo. rewrite Hgo. reflexivity.
  - apply andb_true_iff in Hgo as [_ Hready].
    unfold KazagumoTrack.readyToPlay in Hready. rewrite Ek in Hready. discriminate.
Qed.

(** X5. Resolving twice searches once: when [resolve] went to search for a
    track whose own source, identifier, author, title and uri are not empty,
    and every result is complete (identifier, uri, title, author not empty,
    length not zero), the track is [readyToPlay] afterwards, and a further
    [resolve] without [forceResolve] returns at once, the world as it was. *)
Theorem resolve_twice_searches_once (r : ref) (o o' : option ResolveOptions) (w : World)
    (n : Node) (results : list Track.t) :
  KazagumoTrack.kazagumo (tracks w r) <> None ->
  trackResolver (Options (kazagumo w)) = None ->
  getLeastUsedNode (kazagumo w) = Some n ->
  (forall q, rest_resolve n q = Return (Some results)) ->
  results <> [] ->
  negb (forced o) && KazagumoTrack.readyToPlay (tracks w r) = false ->
  resolveSource w (tracks w r) && KazagumoTrack.resolvedBySource (tracks w r) = false ->
  KazagumoTrack.sourceName (tracks w r) <> "" ->
  KazagumoTrack.identifier (tracks w r) <> "" ->
  truthy_string (KazagumoTrack.author (tracks w r)) = true ->
  KazagumoTrack.title (tracks w r) <> "" ->
  KazagumoTrack.uri (tracks w r) <> "" ->
  (forall t, t ∈ results ->
     Track.track t <> "" /\ Track.uri (Track.info t) <> ""
     /\ Track.title (Track.info t) <> "" /\ Track.author (Track.info t) <> ""
     /\ Track.identifier (Track.info t) <> "" /\ Track.length (Track.info t) <> 0) ->
  forced o' = false ->
  KazagumoTrack.readyToPlay (tracks (resolve r o w).2 r) = true
  /\ resolve r o' (resolve r o w).2 = (Return tt, (resolve r o w).2).
Proof.
  intros Hk Hh Hn Hr Hne Hgo Hns Hs Hi Ha Ht Hu Hall Ho'.
  destruct (resolve_by_search r o w n results Hk Hh Hn Hr Hne Hgo Hns)
    as (t & q & w' & Hpick & Hres & _ & Hnew & _ & _ & Hkz).
  rewrite Hres. cbn [snd].
  destruct (Hall t (pick_member _ _ _ Hpick)) as (Rt & Ru & Rti & Ra & Ri & Rl).
  assert (Hready : KazagumoTrack.readyToPlay (tracks w' r) = true).
  { rewrite Hnew. unfold KazagumoTrack.readyToPlay.
    destruct (KazagumoTrack.kazagumo (tracks w r)); [|congruence].
    apply String.eqb_neq in Hs, Hi, Ht, Hu, Rt, Ru, Rti, Ra, Ri. apply Z.eqb_neq in Rl.
    destruct (overwriting o || resolveSource w (tracks w r)); cbn;
      rewrite ?Hs, ?Hi, ?Ht, ?Hu, ?Rt, ?Ru, ?Rti, ?Ra, ?Ri, ?Rl, ?Ha; reflexivity. }
  split; [exact Hready|].
  apply resolve_short_circuit; [rewrite Hkz; exact Hh|].
  rewrite Ho', Hready. reflexivity.
Qed.

Lemma resolve_twice_searches_once_witness :
  KazagumoTrack.readyToPlay
    (tracks (resolve 0%nat None (searching_world entity_X_Y results_complete)).2 0%nat) = true
  /\ resolve 0%nat None (resolve 0%nat None (searching_world entity_X_Y results_complete)).2
     = (Return tt, (resolve 0%nat None (searching_world entity_X_Y results_complete)).2).
Proof.
  apply (resolve_twice_searches_once 0%nat None None
           (searching_world entity_X_Y results_complete)
           (node_answering results_complete) results_complete);
    try reflexivity; try discriminate.
  intros t Ht. unfold results_complete in Ht.
  apply elem_of_cons in Ht as [-> | Ht]; [repeat split; discriminate|].
  apply elem_of_cons in Ht as [-> | Ht]; [repeat split; discriminate|].
  apply elem_of_nil in Ht. contradiction.
Defined.

(** ** When the search fails *)

(** X6. [getTrack] on a bound track: with no node it throws the
    no-nodes error and asks nothing; with a node whose answer is null or
    holds no track it throws the no-results error after that one search;
    when the node rejects, that rejection is what it throws. *)
Theorem getTrack_failures (r : ref) (w : World) :
  KazagumoTrack.kazagumo (tracks w r) <> None ->
  (getLeastUsedNode (kazagumo w) = None ->
   getTrack r w = (Throw (KazagumoError 1 "No nodes available"), w))
  /\ (forall n,
        getLeastUsedNode (kazagumo w) = Some n ->
        exists q,
          trace (getTrack r w).2 = trace w ++ [RestResolve q]
          /\ (rest_resolve n q = Return None \/ rest_resolve n q = Return (Some []) ->
              (getTrack r w).1 = Throw (KazagumoError 2 "No results found"))
          /\ (forall e, rest_resolve n q = Throw e -> (getTrack r w).1 = Throw e)).
Proof.
  intros Hk. destruct (KazagumoTrack.kazagumo (tracks w r)) as [k|] eqn:Ek; [|congruence].
  split.
  - intros Hn. unfold getTrack. run. rewrite Ek, Hn. reflexivity.
  - intros n Hn. unfold getTrack. run. rewrite Ek, Hn. run.
    eexists. split; [|split].
    + destruct (rest_resolve n _) as [[[|x l]|]|e]; reflexivity.
    + intros [-> | ->]; reflexivity.
    + intros e ->. reflexivity.
Qed.

Lemma getTrack_failures_witness :
  (getTrack 0%nat (searching_world entity_X_Y [])).1
  = Throw (KazagumoError 2 "No results found").
Proof.
  destruct (getTrack_failures 0%nat (searching_world entity_X_Y [])) as [_ H].
  - discriminate.
  - destruct (H (node_answering []) eq_refl) as (q & _ & Hnone & _).
    exact (Hnone (or_intror eq_refl)).
Defined.

(** X7. [getTrack] never invents a track: whatever it returns is one of the
    tracks the node answered with, to the one query it made. *)
Theorem getTrack_returns_a_result (r : ref) (w : World) (found : option Track.t) (w' : World) :
  getTrack r w = (Return found, w') ->
  exists n q results t,
    getLeastUsedNode (kazagumo w) = Some n
    /\ rest_resolve n q = Return (Some results)
    /\ found = Some t
    /\ t ∈ results
    /\ w' = perform (RestResolve q) w.
Proof.
  unfold getTrack. run.
  destruct (KazagumoTrack.kazagumo (tracks w r)); [|discriminate].
  destruct (getLeastUsedNode (kazagumo w)) as [n|]; [|discriminate].
  run. destruct (rest_resolve n _) as [[[|x l]|]|e] eqn:Er; try discriminate.
  intros [= <- <-].
  destruct (pick_some (tracks w r) (x :: l)) as [t Ht]; [discriminate|].
  exists n. eexists. exists (x :: l), t.
  split; [reflexivity|]. split; [exact Er|]. split; [exact Ht|].
  split; [eapply pick_member, Ht|reflexivity].
Qed.

Lemma getTrack_returns_a_result_witness :
  exists n q results t,
    getLeastUsedNode (kazagumo (searching_world entity_X_Y results_complete)) = Some n
    /\ rest_resolve n q = Return (Some results)
    /\ Some (found "r0" "X" "Y" 180500) = Some t
    /\ t ∈ results
    /\ perform (RestResolve "ytsearch:X - Y") (searching_world entity_X_Y results_complete)
       = perform (RestResolve q) (searching_world entity_X_Y results_complete).
Proof.
  apply (getTrack_returns_a_result 0%nat (searching_world entity_X_Y results_complete)).
  reflexivity.
Defined.

(** X8. A failed search sticks.  For a track of a source the session always
    resolves by search, not yet resolved, [resolve] marks the track before
    it searches; when the search fails (no node, or no result) [resolve]
    throws and the mark stays; from then on every [resolve] of that track,
    forced or not, returns normally at once, without a search and without
    having given the track anything to play. *)
Theorem failed_search_is_sticky (r : ref) (o o' : option ResolveOptions) (w : World) :
  KazagumoTrack.kazagumo (tracks w r) <> None ->
  trackResolver (Options (kazagumo w)) = None ->
  resolveSource w (tracks w r) = true ->
  KazagumoTrack.resolvedBySource (tracks w r) = false ->
  negb (forced o) && KazagumoTrack.readyToPlay (tracks w r) = false ->
  match getLeastUsedNode (kazagumo w) with
  | None => True
  | Some n => forall q, rest_resolve n q = Return (Some [])
  end ->
  (resolve r o w).1
  = Throw (match getLeastUsedNode (kazagumo w) with
           | None => KazagumoError 1 "No nodes available"
           | Some _ => KazagumoError 2 "No results found"
           end)
  /\ KazagumoTrack.resolvedBySource (tracks (resolve r o w).2 r) = true
  /\ getRaw (tracks (resolve r o w).2 r) = getRaw (tracks w r)
  /\ KazagumoTrack.realUri (tracks (resolve r o w).2 r) = KazagumoTrack.realUri (tracks w r)
  /\ resolve r o' (resolve r o w).2 = (Return tt, (resolve r o w).2).
Proof.
  intros Hk Hh Hrs Hfresh Hgo Hfail.
  destruct (KazagumoTrack.kazagumo (tracks w r)) as [k|] eqn:Ek; [clear Hk|congruence].
  assert (Hfirst : exists e w1,
             resolve r o w = (Throw e, w1)
             /\ e = match getLeastUsedNode (kazagumo w) with
                    | None => KazagumoError 1 "No nodes available"
                    | Some _ => KazagumoError 2 "No results found"
                    end
             /\ kazagumo w1 = kazagumo w
             /\ tracks w1 r
                = KazagumoTrack.mk (Some k) (KazagumoTrack.requester (tracks w r))
                    (KazagumoTrack.track (tracks w r)) (KazagumoTrack.sourceName (tracks w r))
                    (KazagumoTrack.title (tracks w r)) (KazagumoTrack.uri (tracks w r))
                    (KazagumoTrack.identifier (tracks w r))
                    (KazagumoTrack.isSeekable (tracks w r))
                    (KazagumoTrack.isStream (tracks w r)) (KazagumoTrack.author (tracks w r))
                    (KazagumoTrack.length (tracks w r)) (KazagumoTrack.position (tracks w r))
                    (KazagumoTrack.thumbnail (tracks w r)) (KazagumoTrack.realUri (tracks w r))
                    true).
  { unfold resolve. run. rewrite Ek, Hh. run.
    unfold forced, resolveSource in *. rewrite Hgo, Hrs, Hfresh. cbn [andb].
    unfold getTrack. run. cbn [tracks set_track perform kazagumo].
    rewrite fn_lookup_insert. cbn [KazagumoTrack.kazagumo]. rewrite ?Ek.
    destruct (getLeastUsedNode (kazagumo w)) as [n|].
    - run. rewrite Hfail. do 2 eexists. split; [reflexivity|].
      cbn [tracks set_track perform kazagumo]. rewrite fn_lookup_insert, ?Ek. repeat split.
    - do 2 eexists. split; [reflexivity|].
      cbn [tracks set_track perform kazagumo]. rewrite fn_lookup_insert, ?Ek. repeat split. }
  destruct Hfirst as (e & w1 & Hres & -> & Hkz & Hnew).
  rewrite Hres. cbn [fst snd]. split; [reflexivity|].
  rewrite Hnew. cbn [KazagumoTrack.resolvedBySource KazagumoTrack.realUri].
  split; [reflexivity|]. split; [reflexivity|]. split; [reflexivity|].
  unfold resolve. run. rewrite Hnew. cbn [KazagumoTrack.kazagumo]. rewrite Hkz, Hh. run.
  rewrite Hnew. unfold resolveSource in Hrs. cbn [KazagumoTrack.sourceName
    KazagumoTrack.resolvedBySource]. rewrite Hrs. cbn [andb].
  match goal with |- context [if ?b then _ else _] => destruct b end; reflexivity.
Qed.

Lemma failed_search_is_sticky_witness :
  (resolve 0%nat None (forcing_world None entity_X_Y)).1
  = Throw (KazagumoError 1 "No nodes available")
  /\ resolve 0%nat (Some (Build_ResolveOptions false true))
       (resolve 0%nat None (forcing_world None entity_X_Y)).2
     = (Return tt, (resolve 0%nat None (forcing_world None entity_X_Y)).2)
  /\ KazagumoTrack.track
       (tracks (resolve 0%nat None (forcing_world None entity_X_Y)).2 0%nat) = "".
Proof.
  destruct (failed_search_is_sticky 0%nat None (Some (Build_ResolveOptions false true))
              (forcing_world None entity_X_Y))
    as (H1 & _ & _ & _ & H2); try reflexivity; try discriminate; try exact I.
  split; [exact H1|]. split; [exact H2|]. reflexivity.
Defined.

(** ** What [resolve] leaves alone *)

Lemma others_untouched_refl (r : ref) (w : World) : others_untouched r w w.
Proof. intros r' _. reflexivity. Qed.

Lemma others_untouched_trans (r : ref) (w1 w2 w3 : World) :
  others_untouched r w1 w2 -> others_untouched r w2 w3 -> others_untouched r w1 w3.
Proof. intros H1 H2 r' Hne. rewrite (H2 r' Hne). apply H1, Hne. Qed.

Lemma keeps_others_assign (r : ref) (t : KazagumoTrack.t) :
  keeps (others_untouched r) (assign r t).
Proof. intros w r' Hne. cbn. apply fn_lookup_insert_ne. congruence. Qed.

Lemma keeps_others_perform (r : ref) (e : Effect) :
  keeps (others_untouched r) (modify (perform e)).
Proof. intros w r' _. reflexivity. Qed.

Lemma keeps_others_resolve (r : ref) (o : option ResolveOptions) :
  keeps (others_untouched r) (resolve r o).
Proof.
  unfold resolve.
  repeat first
    [ apply keeps_others_assign
    | apply keeps_others_perform
    | apply (keeps_ret _ (others_untouched_refl r))
    | apply (keeps_throw _ (others_untouched_refl r))
    | apply (keeps_get _ (others_untouched_refl r))
    | apply (keeps_deref _ (others_untouched_refl r))
    | apply (keeps_bind _ (others_untouched_trans r)); [|intros ?]
    | progress cbv zeta
    | match goal with
      | |- keeps _ (match ?x with _ => _ end) => destruct x
      end ].
Qed.

(** X9. Whatever the outcome, the steps of [resolve] touch one track only.
    With no resolver hook, or with a hook that keeps to the track it is
    bound to, every other track, the player, the registry and the listeners
    are as they were, and all that is added to the trace are debug events and
    searches.  Without a hook [resolve] never changes the track's source,
    requester, position, thumbnail or session link either. *)
Theorem resolve_touches_one_track (r : ref) (o : option ResolveOptions) (w : World) :
  others_untouched r w (resolve r o w).2
  /\ player (resolve r o w).2 = player w
  /\ same_session w (resolve r o w).2
  /\ adds resolve_effect w (resolve r o w).2
  /\ match trackResolver (Options (kazagumo w)) with
     | Some _ => True
     | None =>
         same_identity (tracks w r) (tracks (resolve r o w).2 r)
         /\ KazagumoTrack.thumbnail (tracks (resolve r o w).2 r)
            = KazagumoTrack.thumbnail (tracks w r)
         /\ KazagumoTrack.kazagumo (tracks (resolve r o w).2 r)
            = KazagumoTrack.kazagumo (tracks w r)
     end.
Proof.
  split; [apply keeps_others_resolve|].
  destruct (keeps_resolve r o w) as [Hp Hs]. split; [exact Hp|]. split; [exact Hs|].
  split; [apply resolve_adds|].
  destruct (trackResolver (Options (kazagumo w))) as [hook|] eqn:Eh; [exact I|].
  unfold resolve, getTrack, same_identity. run. rewrite Eh.
  repeat (run; cbn [tracks set_track perform kazagumo fst snd];
          rewrite ?fn_lookup_insert;
          match goal with
          | |- context [match ?x with _ => _ end] =>
              lazymatch x with
              | context [match _ with _ => _ end] => fail
              | _ => destruct x eqn:?
              end
          end);
    run; cbn [tracks set_track perform]; rewrite ?fn_lookup_insert; cbn;
    repeat split; congruence.
Qed.

(** ** Pausing *)

(** X10. [pause] with anything but a boolean throws and changes nothing. *)
Theorem pause_rejects_non_boolean (v : JsValue) (w : World) :
  (forall b, v <> JsBool b) ->
  pause v w = (Throw (KazagumoError 1 "pause must be a boolean"), w).
Proof.
  intros H. destruct v as [|b|s|n|]; try reflexivity. exfalso. apply (H b). reflexivity.
Qed.

Lemma pause_rejects_non_boolean_witness :
  pause (JsString "true") busy_world
  = (Throw (KazagumoError 1 "pause must be a boolean"), busy_world).
Proof. apply pause_rejects_non_boolean. intros b. discriminate. Defined.

(** X11. [pause] with a boolean never throws, and pausing twice the same way
    is pausing once.  On a player that holds no track at all it does nothing;
    otherwise [paused] ends as asked, and only a real change sets [playing]
    to the opposite and reaches the worker connection, once. *)
Theorem pause_idempotent (b : bool) (w : World) :
  (pause (JsBool b) w).1 = Return tt
  /\ (pause (JsBool b);; pause (JsBool b)) w = pause (JsBool b) w
  /\ (if (KazagumoQueue.totalSize (KazagumoPlayer.queue (player w)) =? 0)%nat
      then (pause (JsBool b) w).2 = w
      else KazagumoPlayer.paused (player (pause (JsBool b) w).2) = b
           /\ if Bool.eqb (KazagumoPlayer.paused (player w)) b
              then (pause (JsBool b) w).2 = w
              else KazagumoPlayer.playing (player (pause (JsBool b) w).2) = negb b
                   /\ trace (pause (JsBool b) w).2 = trace w ++ [SetPaused b]).
Proof.
  unfold pause. run. cbv beta delta [mbind M_bind].
  destruct (Bool.eqb (KazagumoPlayer.paused (player w)) b) eqn:Ep;
    destruct (KazagumoQueue.totalSize (KazagumoPlayer.queue (player w)) =? 0)%nat eqn:Ez;
    cbn [orb fst snd]; run.
  - rewrite Ep. cbn [orb]. repeat split.
  - rewrite Ep. cbn [orb]. apply Bool.eqb_prop in Ep. repeat split. exact Ep.
  - rewrite Ep, Ez. cbn [orb]. repeat split.
  - cbn [player set_player set_paused set_playing perform KazagumoPlayer.paused
         KazagumoPlayer.queue trace].
    rewrite Bool.eqb_reflx. cbn [orb]. repeat split.
Qed.

(** ** What [play] refuses *)

(** X12. On a player that is not DESTROYED, [play] with something that is
    not a track throws the bad-track error, whatever the queue holds; [play]
    without a track, when nothing is pending and nothing is current, throws
    the no-track error; either way nothing changes and nothing reaches the
    worker connection. *)
Theorem play_rejects (fuel : nat) (o : option PlayOptions) (w : World) :
  KazagumoPlayer.state (player w) <> DESTROYED ->
  play (S fuel) NotATrack o w
  = Some (Throw (KazagumoError 1 "track must be a KazagumoTrack"), w)
  /\ (KazagumoQueue.totalSize (KazagumoPlayer.queue (player w)) = 0%nat ->
      play (S fuel) NoTrack o w = Some (Throw no_track_available, w)).
Proof.
  intros Hs. cbn [play]. unfold play_select. run.
  destruct (decide (KazagumoPlayer.state (player w) = DESTROYED)); [contradiction|].
  split; [reflexivity|].
  intros Hz. rewrite Hz. reflexivity.
Qed.

Lemma play_rejects_witness :
  play 1 NotATrack None busy_world
  = Some (Throw (KazagumoError 1 "track must be a KazagumoTrack"), busy_world)
  /\ play 1 NoTrack None fresh_world = Some (Throw no_track_available, fresh_world).
Proof.
  split.
  - apply (play_rejects 0 None busy_world). discriminate.
  - apply (play_rejects 0 None fresh_world); [discriminate | reflexivity].
Defined.

(** ** What [play] does with the track it is given *)

(** X13. [play(track)] on a player that is not DESTROYED, when the [resolve]
    of that track succeeds: the track becomes [current] and is submitted to
    the worker connection with [noReplace] false; the track that was
    [current] goes back to the front of the queue, unless [replaceCurrent] is
    true, in which case it is dropped; the pending tracks are otherwise as
    they were. *)
Theorem play_track_displaces_current (fuel : nat) (t : ref) (o : option PlayOptions)
    (w : World) :
  KazagumoPlayer.state (player w) <> DESTROYED ->
  (resolve t None (play_select (ATrack t) o w).2).1 = Return tt ->
  exists w',
    play (S fuel) (ATrack t) o w = Some (Return tt, w')
    /\ KazagumoQueue.current (KazagumoPlayer.queue (player w')) = Some t
    /\ KazagumoQueue.items (KazagumoPlayer.queue (player w'))
       = match KazagumoQueue.current (KazagumoPlayer.queue (player w)) with
         | Some c =>
             if default false (replaceCurrent (normalize_options o))
             then KazagumoQueue.items (KazagumoPlayer.queue (player w))
             else c :: KazagumoQueue.items (KazagumoPlayer.queue (player w))
         | None => KazagumoQueue.items (KazagumoPlayer.queue (player w))
         end
    /\ exists pre,
         trace w'
         = pre ++ [PlayTrack (KazagumoTrack.track (tracks w' t))
                     (Build_PlayOptions (replaceCurrent (normalize_options o)) (Some false)
                        (pause_opt (normalize_options o)) (startTime (normalize_options o))
                        (endTime (normalize_options o)))].
Proof.
  intros Hs Hok.
  assert (Hsel : exists w1,
             play_select (ATrack t) o w = (Return (t, normalize_options o), w1)
             /\ KazagumoQueue.current (KazagumoPlayer.queue (player w1)) = Some t
             /\ KazagumoQueue.items (KazagumoPlayer.queue (player w1))
                = match KazagumoQueue.current (KazagumoPlayer.queue (player w)) with
                  | Some c =>
                      if default false (replaceCurrent (normalize_options o))
                      then KazagumoQueue.items (KazagumoPlayer.queue (player w))
                      else c :: KazagumoQueue.items (KazagumoPlayer.queue (player w))
                  | None => KazagumoQueue.items (KazagumoPlayer.queue (player w))
                  end).
  { unfold play_select. run.
    destruct (decide (KazagumoPlayer.state (player w) = DESTROYED)); [contradiction|].
    rewrite (bool_decide_eq_false_2 (ATrack t = NotATrack)) by discriminate.
    rewrite (bool_decide_eq_false_2 (ATrack t = NoTrack)) by discriminate.
    cbn [andb]. run.
    destruct (KazagumoQueue.current (KazagumoPlayer.queue (player w))) as [c|];
      [destruct (default false (replaceCurrent (normalize_options o)))|];
      cbn [negb]; run;
      cbn [player set_player set_queue KazagumoPlayer.queue KazagumoQueue.current
           KazagumoQueue.set_current KazagumoQueue.unshift KazagumoQueue.items];
      match goal with |- context [setKazagumo t ?w0] =>
        destruct (setKazagumo_returns t w0) as [t' Et]; rewrite Et
      end;
      eexists; (split; [reflexivity|]); split; reflexivity. }
  destruct Hsel as (w1 & Esel & Hcur & Hitems).
  rewrite Esel in Hok. cbn [snd] in Hok.
  cbn [play]. rewrite Esel.
  pose proof (keeps_resolve t None w1) as [Hp2 _].
  destruct (resolve t None w1) as [[[]|e] w2]; [|discriminate Hok]. cbn [snd] in Hp2.
  unfold playTrack. run. eexists. split; [reflexivity|].
  cbn [player trace tracks perform]. rewrite Hp2, Hcur, Hitems.
  split; [reflexivity|]. split; [reflexivity|]. eexists. reflexivity.
Qed.

Lemma play_track_displaces_current_witness :
  exists w',
    play 1 (ATrack 7%nat) None busy_world = Some (Return tt, w')
    /\ KazagumoQueue.current (KazagumoPlayer.queue (player w')) = Some 7%nat
    /\ KazagumoQueue.items (KazagumoPlayer.queue (player w')) = [0%nat; 1%nat].
Proof.
  destruct (play_track_displaces_current 0 7%nat None busy_world)
    as (w' & H1 & H2 & H3 & _).
  - discriminate.
  - reflexivity.
  - exists w'. split; [exact H1|]. split; [exact H2|exact H3].
Defined.

(** ** What [play] never does *)

Lemma play_select_options (track : TrackArg) (options : option PlayOptions) (w : World)
    (current : ref) (o : PlayOptions) (w1 : World) :
  play_select track options w = (Return (current, o), w1) -> o = normalize_options options.
Proof.
  unfold play_select. run.
  destruct (decide _); [discriminate|].
  destruct (bool_decide (track = NotATrack)); [discriminate|].
  destruct (_ && _); [discriminate|].
  destruct track as [|t|]; run;
    repeat match goal with
           | |- context [match ?x with _ => _ end] =>
               lazymatch x with
               | context [match _ with _ => _ end] => fail
               | _ => destruct x eqn:?
               end; run
           end;
    try discriminate;
    repeat match goal with
           | |- context [setKazagumo ?c ?w0] =>
               let t' := fresh in let E := fresh in
               destruct (setKazagumo_returns c w0) as [t' E]; rewrite E
           end;
    try discriminate; intros [= <- <- <-]; reflexivity.
Qed.

Lemma resolve_effect_strict (e : Effect) : resolve_effect e = true -> play_effect_strict e = true.
Proof. destruct e as [[]| | | | | | | |]; cbn; congruence. Qed.

Lemma play_adds_strict (fuel : nat) :
  forall track options w c w',
    play fuel track options w = Some (c, w') -> adds play_effect_strict w w'.
Proof.
  induction fuel as [|fuel IH]; intros track options w c w' H; [discriminate|].
  cbn [play] in H.
  pose proof (play_select_adds play_effect_strict track options w) as Hsel.
  destruct (play_select track options w) as [[[current o]|e] w1] eqn:Esel; cbn [snd] in Hsel.
  - apply play_select_options in Esel. subst o.
    pose proof (adds_weaken _ _ _ _ resolve_effect_strict
                  (resolve_adds current None w1)) as Hres.
    destruct (resolve current None w1) as [[[]|e] w2]; cbn [snd] in Hres.
    + injection H as <- <-.
      eapply adds_trans; [exact Hsel|]. eapply adds_trans; [exact Hres|].
      unfold playTrack. run. eexists. split; [reflexivity|].
      cbn. destruct options as [[[b|] ? ? ? ?]|]; reflexivity.
    + destruct (message e) as [m|e'].
      2:{ injection H as <- <-. eapply adds_trans; [exact Hsel|exact Hres]. }
      assert (H3 : adds play_effect_strict w (resolve_failed current m w2).2).
      { eapply adds_trans; [exact Hsel|]. eapply adds_trans; [exact Hres|].
        destruct (resolve_failed_world current m w2) as (_ & Ht & _).
        eexists. split; [exact Ht|reflexivity]. }
      destruct (_ =? 0)%nat.
      * injection H as <- <-.
        eapply adds_trans; [exact H3|]. exists [Emit PlayerEmpty]. split; reflexivity.
      * destruct (play fuel NoTrack None _) as [[c4 w4]|] eqn:E; [|discriminate].
        injection H as <- <-.
        eapply adds_trans; [exact H3|]. eapply IH, E.
  - injection H as <- <-. exact Hsel.
Qed.

(** X14. [play] returns, given fuel for the pending tracks and two more, and
    whatever it does it keeps its hands off the rest of the player: state,
    voiceId, textId, [paused], [playing], the loop mode, the volume and
    [previous] are as they were, and so are the registry and the listeners.
    All it adds to the trace are debug, resolve-error and player-empty
    events, searches, and [playTrack] submissions, each of these with
    [noReplace] false and a boolean [replaceCurrent]; it never emits
    player-start or player-end and never pauses or stops the worker. *)
Theorem play_touches_queue_only (fuel : nat) (track : TrackArg) (options : option PlayOptions)
    (w : World) :
  (KazagumoQueue.size (KazagumoPlayer.queue (player w)) + 2 <= fuel)%nat ->
  exists c w' added,
    play fuel track options w = Some (c, w')
    /\ player w' = set_queue (KazagumoPlayer.queue (player w')) (player w)
    /\ KazagumoQueue.previous (KazagumoPlayer.queue (player w'))
       = KazagumoQueue.previous (KazagumoPlayer.queue (player w))
    /\ players w' = players w
    /\ listeners w' = listeners w
    /\ kazagumo w' = kazagumo w
    /\ trace w' = trace w ++ added
    /\ forallb play_effect_strict added = true.
Proof.
  intros Hfuel.
  destruct (play_total fuel track options w Hfuel) as (c & w' & H).
  destruct (play_frame fuel track options w c w' H) as [[Hp Hprev] (Hk & Hps & Hl)].
  destruct (play_adds_strict fuel track options w c w' H) as (l & Htr & Hl').
  exists c, w', l. repeat split; assumption.
Qed.

Lemma play_touches_queue_only_witness :
  exists c w' added,
    play 3 NoTrack None (stranded_world Loop.none [1%nat]) = Some (c, w')
    /\ KazagumoPlayer.playing (player w') = true
    /\ trace w' = trace (stranded_world Loop.none [1%nat]) ++ added
    /\ forallb play_effect_strict added = true.
Proof.
  destruct (play_touches_queue_only 3 NoTrack None (stranded_world Loop.none [1%nat]))
    as (c & w' & added & H & Hp & _ & _ & _ & _ & Htr & Hadd).
  - vm_compute. lia.
  - exists c, w', added. split; [exact H|]. split; [rewrite Hp; reflexivity|].
    split; [exact Htr|exact Hadd].
Defined.

(** ** Fuel *)

Lemma play_fuel_mono (fuel : nat) :
  forall track options w res,
    play fuel track options w = Some res -> play (S fuel) track options w = Some res.
Proof.
  induction fuel as [|fuel IH]; intros track options w res H; [discriminate|].
  cbn [play] in H. change (play (S (S fuel)) track options w) with
    (match play_select track options w with
     | (Throw e, w1) => Some (Throw e, w1)
     | (Return (current, options0), w1) =>
         match resolve current None w1 with
         | (Throw e, w2) =>
             match message e with
             | Throw e' => Some (Throw e', w2)
             | Return errorMessage =>
                 let w3 := (resolve_failed current errorMessage w2).2 in
                 if (KazagumoQueue.size (KazagumoPlayer.queue (player w3)) =? 0)%nat
                 then Some (emit PlayerEmpty w3)
                 else match play (S fuel) NoTrack None w3 with
                      | None => None
                      | Some (_, w4) => Some (Return tt, w4)
                      end
             end
         | (Return _, w2) => Some (playTrack current options0 w2)
         end
     end).
  destruct (play_select track options w) as [[[current o]|e] w1]; [|exact H].
  destruct (resolve current None w1) as [[[]|e] w2]; [exact H|].
  destruct (message e) as [m|e']; [|exact H].
  cbv zeta in *. destruct (_ =? 0)%nat; [exact H|].
  destruct (play fuel NoTrack None _) as [[c4 w4]|] eqn:E; [|discriminate].
  rewrite (IH _ _ _ _ E). exact H.
Qed.

Lemma play_fuel_more (k fuel : nat) (track : TrackArg) (options : option PlayOptions)
    (w : World) (res : Completion unit * World) :
  play fuel track options w = Some res -> play (k + fuel) track options w = Some res.
Proof.
  intros H. induction k as [|k IH]; [exact H|]. cbn [Nat.add]. apply play_fuel_mono, IH.
Qed.

(** X15. The fuel is only a bound: with fuel for the pending tracks and two
    more, [play] returns, and any two such amounts of fuel give the same
    completion and the same world. *)
Theorem play_fuel_irrelevant (fuel1 fuel2 : nat) (track : TrackArg)
    (options : option PlayOptions) (w : World) :
  (KazagumoQueue.size (KazagumoPlayer.queue (player w)) + 2 <= fuel1)%nat ->
  (KazagumoQueue.size (KazagumoPlayer.queue (player w)) + 2 <= fuel2)%nat ->
  exists res,
    play fuel1 track options w = Some res /\ play fuel2 track options w = Some res.
Proof.
  intros H1 H2.
  destruct (play_total (KazagumoQueue.size (KazagumoPlayer.queue (player w)) + 2)
              track options w) as (c & w' & H); [lia|].
  exists (c, w'). split.
  - replace fuel1 with ((fuel1 - (KazagumoQueue.size (KazagumoPlayer.queue (player w)) + 2))
                        + (KazagumoQueue.size (KazagumoPlayer.queue (player w)) + 2))%nat by lia.
    apply play_fuel_more, H.
  - replace fuel2 with ((fuel2 - (KazagumoQueue.size (KazagumoPlayer.queue (player w)) + 2))
                        + (KazagumoQueue.size (KazagumoPlayer.queue (player w)) + 2))%nat by lia.
    apply play_fuel_more, H.
Qed.

Lemma play_fuel_irrelevant_witness :
  exists res,
    play 3 NoTrack None (stranded_world Loop.none [1%nat]) = Some res
    /\ play 9 NoTrack None (stranded_world Loop.none [1%nat]) = Some res.
Proof.
  apply (play_fuel_irrelevant 3 9 NoTrack None (stranded_world Loop.none [1%nat]));
    vm_compute; lia.
Defined.

(** ** A session without a node *)

Lemma readyToPlay_complete (t : KazagumoTrack.t) :
  complete t = false -> KazagumoTrack.readyToPlay t = false.
Proof.
  unfold complete, KazagumoTrack.readyToPlay. intros H.
  destruct (KazagumoTrack.kazagumo t); [|reflexivity].
  cbn [andb negb] in *.
  repeat match goal with
         | H : context [?a && ?b] |- _ => fail
         end.
  revert H.
  destruct (negb (String.eqb (KazagumoTrack.track t) ""));
    destruct (negb (String.eqb (KazagumoTrack.sourceName t) ""));
    destruct (negb (String.eqb (KazagumoTrack.identifier t) ""));
    destruct (truthy_string (KazagumoTrack.author t));
    destruct (truthy_number (KazagumoTrack.length t));
    destruct (negb (String.eqb (KazagumoTrack.title t) ""));
    destruct (negb (String.eqb (KazagumoTrack.uri t) ""));
    destruct (truthy_string (KazagumoTrack.realUri t)); cbn; congruence.
Qed.

Lemma setKazagumo_world (r : ref) (w : World) :
  exists t,
    setKazagumo r w = (Return tt, set_track r t w)
    /\ KazagumoTrack.kazagumo t = Some TheKazagumo
    /\ complete t = complete (tracks w r)
    /\ KazagumoTrack.track t = KazagumoTrack.track (tracks w r).
Proof. unfold setKazagumo. run. eexists. repeat split. Qed.

Lemma resolve_no_node (r : ref) (w : World) :
  KazagumoTrack.kazagumo (tracks w r) = Some TheKazagumo ->
  complete (tracks w r) = false ->
  trackResolver (Options (kazagumo w)) = None ->
  sourceForceResolve (Options (kazagumo w)) = None ->
  getLeastUsedNode (kazagumo w) = None ->
  exists w2 d,
    resolve r None w = (Throw (KazagumoError 1 "No nodes available"), w2)
    /\ (forall r', tracks w2 r' = tracks w r')
    /\ player w2 = player w
    /\ kazagumo w2 = kazagumo w
    /\ trace w2 = trace w ++ [Emit (Debug d)].
Proof.
  intros Hk Hc Hh Hf Hn. unfold resolve. run. rewrite Hk, Hh. run. rewrite ?Hk, Hf.
  rewrite (readyToPlay_complete _ Hc). cbn [negb andb]. run.
  unfold getTrack. run. cbn [tracks set_track perform kazagumo].
  rewrite fn_lookup_insert. cbn [KazagumoTrack.kazagumo]. rewrite ?Hk, Hn. run.
  eexists _, _. split; [reflexivity|]. cbn. repeat split.
  intros r'. destruct (decide (r' = r)) as [->|Hne].
  - rewrite fn_lookup_insert. destruct (tracks w r). cbn in Hk. rewrite Hk. reflexivity.
  - rewrite fn_lookup_insert_ne by congruence. reflexivity.
Qed.

Lemma play_drains (pending : list ref) :
  forall (fuel : nat) (w : World),
    KazagumoPlayer.state (player w) <> DESTROYED ->
    KazagumoQueue.current (KazagumoPlayer.queue (player w)) = None ->
    KazagumoQueue.items (KazagumoPlayer.queue (player w)) = pending ->
    pending <> [] ->
    trackResolver (Options (kazagumo w)) = None ->
    sourceForceResolve (Options (kazagumo w)) = None ->
    getLeastUsedNode (kazagumo w) = None ->
    (forall r, r ∈ pending -> complete (tracks w r) = false) ->
    (List.length pending <= fuel)%nat ->
    exists w' added,
      play fuel NoTrack None w = Some (Return tt, w')
      /\ KazagumoQueue.items (KazagumoPlayer.queue (player w')) = []
      /\ KazagumoQueue.current (KazagumoPlayer.queue (player w')) = None
      /\ trace w' = trace w ++ added
      /\ count is_ResolveError added = List.length pending
      /\ count is_PlayerEmpty added = 1%nat
      /\ count is_PlayTrack added = 0%nat
      /\ count is_search added = 0%nat.
Proof.
  induction pending as [|x rest IH]; intros fuel w Hs Hcur Hi Hne Hh Hf Hn Hinc Hfuel;
    [contradiction|].
  destruct fuel as [|fuel]; [cbn in Hfuel; lia|]. cbn [play].
  rewrite (play_select_shift w x rest Hs Hcur Hi).
  match goal with |- context [setKazagumo x ?w0] =>
    destruct (setKazagumo_world x w0) as (t & Et & Hk & Hc & _); rewrite Et; set (w1 := set_track x t w0)
  end.
  cbn [snd].
  destruct (resolve_no_node x w1) as (w2 & d & Er & Ht2 & Hp2 & Hk2 & Htr2).
  { unfold w1. cbn. rewrite fn_lookup_insert. exact Hk. }
  { unfold w1. cbn. rewrite fn_lookup_insert. rewrite Hc. cbn. apply Hinc. left. }
  { exact Hh. } { exact Hf. } { exact Hn. }
  rewrite Er.
  cbn [message].
  destruct (resolve_failed_world x (Some "No nodes available") w2)
    as (_ & Htr3 & Hp3 & Ht3).
  set (w3 := (resolve_failed x (Some "No nodes available") w2).2) in *.
  cbv zeta.
  assert (Hk3 : kazagumo w3 = kazagumo w).
  { destruct (keeps_resolve_failed x (Some "No nodes available") w2)
      as [_ (Hk3 & _)]. fold w3 in Hk3. rewrite Hk3, Hk2. reflexivity. }
  assert (Hi3 : KazagumoQueue.items (KazagumoPlayer.queue (player w3)) = rest).
  { rewrite Hp3, Hp2. reflexivity. }
  assert (Hc3 : KazagumoQueue.current (KazagumoPlayer.queue (player w3)) = None).
  { rewrite Hp3. reflexivity. }
  assert (Hs3 : KazagumoPlayer.state (player w3) = KazagumoPlayer.state (player w)).
  { rewrite Hp3, Hp2. reflexivity. }
  assert (Htrace : trace w3 = trace w
                     ++ [Emit (Debug d);
                         Emit (PlayerResolveError x (Some "No nodes available"));
                         Emit (Debug ("Player " +:+ KazagumoPlayer.guildId (player w2)
                                      +:+ " resolve error: " +:+ "No nodes available"))]).
  { rewrite Htr3, Htr2. unfold w1. cbn [trace set_track set_player].
    rewrite <- app_assoc. reflexivity. }
  unfold KazagumoQueue.size. rewrite Hi3.
  destruct rest as [|y rest'].
  - cbn [List.length Nat.eqb]. unfold emit, modify.
    eexists _, _. split; [reflexivity|].
    cbn [player perform trace]. rewrite Hi3, Hc3, Htrace, <- app_assoc.
    repeat split.
  - cbn [List.length Nat.eqb].
    destruct (IH fuel w3) as (w' & added & Ep & Hi' & Hc' & Htr' & Hn1 & Hn2 & Hn3 & Hn4).
    + rewrite Hs3. exact Hs.
    + exact Hc3.
    + exact Hi3.
    + discriminate.
    + rewrite Hk3. exact Hh.
    + rewrite Hk3. exact Hf.
    + rewrite Hk3. exact Hn.
    + intros r Hr. rewrite Ht3, Ht2. unfold w1. cbn [tracks set_track set_player].
      destruct (decide (r = x)) as [->|Hrx].
      * rewrite fn_lookup_insert, Hc. cbn. apply Hinc. left.
      * rewrite fn_lookup_insert_ne by congruence. apply Hinc. right. exact Hr.
    + cbn in Hfuel. cbn. lia.
    + rewrite Ep. eexists _, _. split; [reflexivity|].
      split; [exact Hi'|]. split; [exact Hc'|].
      split; [rewrite Htr', Htrace, <- app_assoc; reflexivity|].
      rewrite !count_app, Hn1, Hn2, Hn3, Hn4. repeat split.
Qed.

(** X16. With no node to search on, no resolver hook and no source resolved
    by force, [play()] throws away every pending track that is not ready to
    play: called with [current] empty on a player that is not DESTROYED, it
    returns with the queue empty and [current] empty, having emitted one
    resolve-error event per pending track and one player-empty event, and
    having submitted nothing to the worker connection and searched for
    nothing. *)
Theorem play_drains_queue_without_node (fuel : nat) (w : World) :
  KazagumoPlayer.state (player w) <> DESTROYED ->
  KazagumoQueue.current (KazagumoPlayer.queue (player w)) = None ->
  KazagumoQueue.items (KazagumoPlayer.queue (player w)) <> [] ->
  trackResolver (Options (kazagumo w)) = None ->
  sourceForceResolve (Options (kazagumo w)) = None ->
  getLeastUsedNode (kazagumo w) = None ->
  (forall r, r ∈ KazagumoQueue.items (KazagumoPlayer.queue (player w)) ->
             complete (tracks w r) = false) ->
  (KazagumoQueue.size (KazagumoPlayer.queue (player w)) <= fuel)%nat ->
  exists w' added,
    play fuel NoTrack None w = Some (Return tt, w')
    /\ KazagumoQueue.items (KazagumoPlayer.queue (player w')) = []
    /\ KazagumoQueue.current (KazagumoPlayer.queue (player w')) = None
    /\ trace w' = trace w ++ added
    /\ count is_ResolveError added = KazagumoQueue.size (KazagumoPlayer.queue (player w))
    /\ count is_PlayerEmpty added = 1%nat
    /\ count is_PlayTrack added = 0%nat
    /\ count is_search added = 0%nat.
Proof.
  intros Hs Hc Hne Hh Hf Hn Hinc Hfuel.
  exact (play_drains _ fuel w Hs Hc eq_refl Hne Hh Hf Hn Hinc Hfuel).
Qed.

Lemma play_drains_queue_without_node_witness :
  exists w' added,
    play 2 NoTrack None
      (with_queue (KazagumoQueue.mk [1%nat; 2%nat] None None) (stranded_world Loop.none []))
    = Some (Return tt, w')
    /\ KazagumoQueue.items (KazagumoPlayer.queue (player w')) = []
    /\ KazagumoQueue.current (KazagumoPlayer.queue (player w')) = None
    /\ trace w' = [] ++ added
    /\ count is_ResolveError added = 2%nat
    /\ count is_PlayerEmpty added = 1%nat
    /\ count is_PlayTrack added = 0%nat
    /\ count is_search added = 0%nat.
Proof.
  apply (play_drains_queue_without_node 2
           (with_queue (KazagumoQueue.mk [1%nat; 2%nat] None None)
              (stranded_world Loop.none []))).
  - discriminate.
  - reflexivity.
  - discriminate.
  - reflexivity.
  - reflexivity.
  - reflexivity.
  - intros r _. reflexivity.
  - vm_compute. lia.
Defined.

(** ** The [end] notification, further *)


(** X17. When the last track ends (a reason other than REPLACED,
    LOAD_FAILED and CLEAN_UP, nothing pending, and no loop mode or no current
    track), the listener emits the player-empty event and no player-end
    event, records the track as [previous], clears [current] and sets
    [playing] to false; a [play()] after that throws the no-track error. *)
Theorem end_after_last_track (fuel : nat) (reason : string) (w : World) :
  KazagumoPlayer.state (player w) <> DESTROYING ->
  KazagumoPlayer.state (player w) <> DESTROYED ->
  reason <> "REPLACED" -> reason <> "LOAD_FAILED" -> reason <> "CLEAN_UP" ->
  KazagumoQueue.items (KazagumoPlayer.queue (player w)) = [] ->
  KazagumoPlayer.loop (player w) = Loop.none
  \/ KazagumoQueue.current (KazagumoPlayer.queue (player w)) = None ->
  exists w',
    on_end fuel reason w = Some (Return tt, w')
    /\ KazagumoPlayer.queue (player w')
       = KazagumoQueue.mk [] None (KazagumoQueue.current (KazagumoPlayer.queue (player w)))
    /\ KazagumoPlayer.playing (player w') = false
    /\ trace w' = trace w ++ [Emit PlayerEmpty]
    /\ play (S fuel) NoTrack None w' = Some (Throw no_track_available, w').
Proof.
  intros Hing Hed H1 H2 H3 Hi Hl.
  destruct (default_reason reason H1 H2 H3) as [Er Em].
  unfold on_end.
  rewrite (bool_decide_eq_false_2 _ Hing), (bool_decide_eq_false_2 _ Hed), Er, Em.
  cbn [orb].
  assert (Hw1 :
    ((match KazagumoQueue.current (KazagumoPlayer.queue (player w)) with
      | Some c =>
          when (bool_decide (KazagumoPlayer.loop (player w) = Loop.track))
               (update_queue (KazagumoQueue.unshift c));;
          when (bool_decide (KazagumoPlayer.loop (player w) = Loop.queue))
               (update_queue (KazagumoQueue.push c))
      | None => mret tt
      end;;
      update_queue (KazagumoQueue.set_previous
                      (KazagumoQueue.current (KazagumoPlayer.queue (player w))));;
      update_queue (KazagumoQueue.set_current None)) w).2
    = with_queue (KazagumoQueue.mk [] None
                    (KazagumoQueue.current (KazagumoPlayer.queue (player w)))) w).
  { clear - Hi Hl.
    destruct w as [k ps [g v t [items cur prev] st pa pl lo d vol] trs ls tr].
    cbn in Hi, Hl. subst items.
    destruct Hl as [-> | ->]; [destruct cur|];
      rewrite ?(bool_decide_eq_false_2 (Loop.none = Loop.track)),
              ?(bool_decide_eq_false_2 (Loop.none = Loop.queue)) by discriminate;
      reflexivity. }
  cbv zeta. rewrite Hw1. cbn [with_queue player set_player set_queue KazagumoPlayer.queue
                              KazagumoQueue.size KazagumoQueue.items List.length Nat.eqb].
  unfold update_player. run.
  eexists. split; [reflexivity|].
  cbn [player set_player perform set_playing set_queue KazagumoPlayer.queue
       KazagumoPlayer.playing trace].
  split; [reflexivity|]. split; [reflexivity|]. split; [reflexivity|].
  cbn [play]. unfold play_select, with_queue. run.
  cbn [player set_player perform set_playing set_queue KazagumoPlayer.queue
       KazagumoPlayer.state].
  destruct (decide (KazagumoPlayer.state (player w) = DESTROYED)); [contradiction|].
  rewrite (bool_decide_eq_false_2 (NoTrack = NotATrack)) by discriminate.
  rewrite (bool_decide_eq_true_2 (NoTrack = NoTrack)) by reflexivity.
  reflexivity.
Qed.

Lemma end_after_last_track_witness :
  exists w',
    on_end 0 "FINISHED" (playing_world Loop.none []) = Some (Return tt, w')
    /\ KazagumoPlayer.queue (player w') = KazagumoQueue.mk [] None (Some 0%nat)
    /\ KazagumoPlayer.playing (player w') = false
    /\ trace w' = [] ++ [Emit PlayerEmpty]
    /\ play 1 NoTrack None w' = Some (Throw no_track_available, w').
Proof.
  apply (end_after_last_track 0 "FINISHED" (playing_world Loop.none []));
    try discriminate; try reflexivity.
  left. reflexivity.
Defined.

(** X18. When the track that failed to load was the last one (reason
    LOAD_FAILED or CLEAN_UP, nothing pending), the listener emits the
    player-empty event and sets [playing] to false, but it returns before
    [current] is cleared: the failed track is both [previous] and [current],
    and the next [play()] selects it again. *)
Theorem end_load_failed_keeps_current (fuel : nat) (reason : string) (w : World) (c : ref) :
  KazagumoPlayer.state (player w) <> DESTROYING ->
  KazagumoPlayer.state (player w) <> DESTROYED ->
  reason = "LOAD_FAILED" \/ reason = "CLEAN_UP" ->
  KazagumoQueue.items (KazagumoPlayer.queue (player w)) = [] ->
  KazagumoQueue.current (KazagumoPlayer.queue (player w)) = Some c ->
  exists w',
    on_end fuel reason w = Some (Return tt, w')
    /\ KazagumoPlayer.queue (player w') = KazagumoQueue.mk [] (Some c) (Some c)
    /\ KazagumoPlayer.playing (player w') = false
    /\ trace w' = trace w ++ [Emit PlayerEmpty]
    /\ exists w1, play_select NoTrack None w' = (Return (c, normalize_options None), w1).
Proof.
  intros Hing Hed Hr Hi Hc.
  destruct (load_failed_reasons reason Hr) as [Er Em].
  destruct w as [k ps [g v t [items cur prev] st pa pl lo d vol] trs ls tr].
  cbn in Hing, Hed, Hi, Hc. subst items cur.
  unfold on_end. cbn [player KazagumoPlayer.state].
  rewrite (bool_decide_eq_false_2 _ Hing), (bool_decide_eq_false_2 _ Hed), Er, Em.
  cbn [orb]. eexists. split; [reflexivity|].
  split; [reflexivity|]. split; [reflexivity|]. split; [reflexivity|].
  unfold play_select. run. cbn [player set_player perform KazagumoPlayer.state
                                update_queue update_player set_playing set_queue].
  destruct (decide (st = DESTROYED)); [contradiction|].
  rewrite (bool_decide_eq_false_2 (NoTrack = NotATrack)) by discriminate.
  rewrite (bool_decide_eq_true_2 (NoTrack = NoTrack)) by reflexivity.
  cbn -[setKazagumo normalize_options].
  match goal with |- context [setKazagumo c ?w0] =>
    destruct (setKazagumo_returns c w0) as [t' Et]; rewrite Et end.
  eexists. reflexivity.
Qed.

Lemma end_load_failed_keeps_current_witness :
  exists w',
    on_end 0 "LOAD_FAILED" (playing_world Loop.none []) = Some (Return tt, w')
    /\ KazagumoPlayer.queue (player w') = KazagumoQueue.mk [] (Some 0%nat) (Some 0%nat)
    /\ KazagumoPlayer.playing (player w') = false
    /\ trace w' = [] ++ [Emit PlayerEmpty]
    /\ exists w1, play_select NoTrack None w' = (Return (0%nat, normalize_options None), w1).
Proof.
  apply (end_load_failed_keeps_current 0 "LOAD_FAILED" (playing_world Loop.none []) 0%nat);
    try discriminate; try reflexivity.
  left. reflexivity.
Defined.



(** ** The voice link *)

(** X20. [connect] returns normally exactly on a player that is neither
    DESTROYED nor CONNECTED and has no voice channel; it then sends the join
    payload with that missing channel id and ends CONNECTED, the voiceId
    still missing.  In every other case it throws and changes nothing. *)
Theorem connect_needs_no_channel (w : World) :
  ((connect w).1 = Return tt
   <-> KazagumoPlayer.state (player w) <> DESTROYED
       /\ KazagumoPlayer.state (player w) <> CONNECTED
       /\ truthy_string (KazagumoPlayer.voiceId (player w)) = false)
  /\ ((connect w).1 = Return tt ->
      KazagumoPlayer.state (player (connect w).2) = CONNECTED
      /\ KazagumoPlayer.voiceId (player (connect w).2) = KazagumoPlayer.voiceId (player w)
      /\ trace (connect w).2
         = trace w ++ [VoiceSend (KazagumoPlayer.guildId (player w))
                         (KazagumoPlayer.voiceId (player w)) false
                         (KazagumoPlayer.deaf (player w));
                       Emit (Debug ("Player " +:+ KazagumoPlayer.guildId (player w)
                                    +:+ " connected"))])
  /\ ((connect w).1 <> Return tt -> (connect w).2 = w).
Proof.
  unfold connect. run.
  destruct (decide (KazagumoPlayer.state (player w) = DESTROYED)) as [Hd|Hd].
  { cbn [fst snd]. repeat split; intros; first [reflexivity | congruence | intuition congruence]. }
  destruct (bool_decide (KazagumoPlayer.state (player w) = CONNECTED)) eqn:Hc.
  { apply bool_decide_eq_true_1 in Hc. cbn [orb fst snd].
    repeat split; intros; first [reflexivity | congruence | intuition congruence]. }
  apply bool_decide_eq_false_1 in Hc.
  destruct (truthy_string (KazagumoPlayer.voiceId (player w))) eqn:Hv; cbn [orb fst snd].
  { repeat split; intros; first [reflexivity | congruence | intuition congruence]. }
  split; [split; [intros _; repeat split; assumption | reflexivity]|].
  split.
  - intros _. cbn. rewrite <- app_assoc. repeat split.
  - intros H. exfalso. apply H. reflexivity.
Qed.

(** X21. A player that was disconnected cannot be taken back by [connect]:
    [disconnect] clears the voiceId, so the [connect] that follows succeeds
    but sends a join payload without a channel and still declares the player
    CONNECTED; from there [disconnect] and [destroy] both throw the
    already-disconnected error and change nothing. *)
Theorem reconnect_joins_nothing (w : World) :
  KazagumoPlayer.state (player w) <> DISCONNECTED ->
  truthy_string (KazagumoPlayer.voiceId (player w)) = true ->
  exists w1 w2,
    disconnect w = (Return tt, w1)
    /\ connect w1 = (Return tt, w2)
    /\ KazagumoPlayer.state (player w2) = CONNECTED
    /\ KazagumoPlayer.voiceId (player w2) = None
    /\ trace w2 = trace w1 ++ [VoiceSend (KazagumoPlayer.guildId (player w)) None false
                                 (KazagumoPlayer.deaf (player w));
                               Emit (Debug ("Player " +:+ KazagumoPlayer.guildId (player w)
                                            +:+ " connected"))]
    /\ disconnect w2 = (Throw (KazagumoError 1 "Player is already disconnected"), w2)
    /\ destroy w2 = (Throw (KazagumoError 1 "Player is already disconnected"), w2).
Proof.
  intros Hs Hv. unfold disconnect at 1. run.
  rewrite (bool_decide_eq_false_2 _ Hs), Hv. cbn [orb negb].
  unfold pause. run.
  set (b := Bool.eqb _ true || _).
  assert (Hgen : forall w0,
    KazagumoPlayer.guildId (player w0) = KazagumoPlayer.guildId (player w) ->
    KazagumoPlayer.deaf (player w0) = KazagumoPlayer.deaf (player w) ->
    KazagumoPlayer.state (player w0) = DISCONNECTED ->
    KazagumoPlayer.voiceId (player w0) = None ->
    exists w2,
      connect w0 = (Return tt, w2)
      /\ KazagumoPlayer.state (player w2) = CONNECTED
      /\ KazagumoPlayer.voiceId (player w2) = None
      /\ trace w2 = trace w0 ++ [VoiceSend (KazagumoPlayer.guildId (player w)) None false
                                   (KazagumoPlayer.deaf (player w));
                                 Emit (Debug ("Player " +:+ KazagumoPlayer.guildId (player w)
                                              +:+ " connected"))]
      /\ disconnect w2 = (Throw (KazagumoError 1 "Player is already disconnected"), w2)
      /\ destroy w2 = (Throw (KazagumoError 1 "Player is already disconnected"), w2)).
  { intros w0 Hg Hdf Hst Hvo. unfold connect. run. rewrite Hst, Hvo, Hg, Hdf.
    destruct (decide (DISCONNECTED = DESTROYED)) as [E|_]; [discriminate E|].
    rewrite (bool_decide_eq_false_2 (DISCONNECTED = CONNECTED)) by discriminate.
    cbn [truthy_string orb].
    eexists. split; [reflexivity|].
    split; [reflexivity|]. split; [cbn; exact Hvo|].
    split; [cbn; rewrite <- app_assoc; reflexivity|].
    split.
    - apply disconnect_refused. right. cbn. rewrite Hvo. reflexivity.
    - unfold destroy. run. cbn [player perform set_player set_state KazagumoPlayer.state].
      rewrite (bool_decide_eq_false_2 (CONNECTED = DESTROYING)) by discriminate.
      rewrite (bool_decide_eq_false_2 (CONNECTED = DESTROYED)) by discriminate.
      cbn [orb].
      rewrite disconnect_refused by (right; cbn; rewrite Hvo; reflexivity).
      reflexivity. }
  destruct b.
  - run. edestruct Hgen as (w2 & H); [| | | |eexists _, w2; split; [reflexivity|exact H]];
      reflexivity.
  - run. edestruct Hgen as (w2 & H); [| | | |eexists _, w2; split; [reflexivity|exact H]];
      reflexivity.
Qed.

Lemma reconnect_joins_nothing_witness :
  exists w1 w2,
    disconnect busy_world = (Return tt, w1)
    /\ connect w1 = (Return tt, w2)
    /\ KazagumoPlayer.state (player w2) = CONNECTED
    /\ KazagumoPlayer.voiceId (player w2) = None
    /\ trace w2 = trace w1 ++ [VoiceSend (KazagumoPlayer.guildId (player busy_world)) None false
                                 (KazagumoPlayer.deaf (player busy_world));
                               Emit (Debug ("Player "
                                            +:+ KazagumoPlayer.guildId (player busy_world)
                                            +:+ " connected"))]
    /\ disconnect w2 = (Throw (KazagumoError 1 "Player is already disconnected"), w2)
    /\ destroy w2 = (Throw (KazagumoError 1 "Player is already disconnected"), w2).
Proof.
  apply (reconnect_joins_nothing busy_world); [discriminate | reflexivity].
Defined.

(** X22. What makes a player destroyable again is [setVoiceChannel]: on a
    player that is not DESTROYED, whatever its state and voiceId were, a
    move to a channel with a non-empty id leaves it CONNECTING with that
    voiceId, having sent the join payload for the channel; from there
    [connect] throws the already-connected error and changes nothing, and
    [destroy] returns normally and ends DESTROYED. *)
Theorem setVoiceChannel_makes_destroyable (voiceId : string) (w : World) :
  KazagumoPlayer.state (player w) <> DESTROYED ->
  voiceId <> "" ->
  exists w1 w2,
    setVoiceChannel voiceId w = (Return tt, w1)
    /\ KazagumoPlayer.state (player w1) = CONNECTING
    /\ KazagumoPlayer.voiceId (player w1) = Some voiceId
    /\ trace w1 = trace w ++ [VoiceSend (KazagumoPlayer.guildId (player w)) (Some voiceId)
                                false (KazagumoPlayer.deaf (player w));
                              Emit (Debug ("Player " +:+ KazagumoPlayer.guildId (player w)
                                           +:+ " moved to voice channel " +:+ voiceId))]
    /\ connect w1 = (Throw (KazagumoError 1 "Player is already connected"), w1)
    /\ destroy w1 = (Return tt, w2)
    /\ KazagumoPlayer.state (player w2) = DESTROYED.
Proof.
  intros Hs Hne. unfold setVoiceChannel. run.
  destruct (decide (KazagumoPlayer.state (player w) = DESTROYED)); [contradiction|].
  assert (Hv : truthy_string (Some voiceId) = true).
  { unfold truthy_string. apply negb_true_iff, String.eqb_neq, Hne. }
  match goal with |- context [(Return tt, ?w0)] => set (w1 := w0) end.
  destruct (destroy_ok w1) as (w2 & Hd & Hst & _); try discriminate; [exact Hv|].
  exists w1, w2. split; [reflexivity|].
  split; [reflexivity|]. split; [reflexivity|].
  split; [unfold w1; cbn; rewrite <- app_assoc; reflexivity|].
  split; [|split; [exact Hd|exact Hst]].
  unfold connect. run. unfold w1 at 1 2.
  cbn [player perform set_player set_state set_voiceId KazagumoPlayer.state
       KazagumoPlayer.voiceId].
  destruct (decide (CONNECTING = DESTROYED)) as [E|_]; [discriminate E|].
  change (KazagumoPlayer.voiceId (player w1)) with (Some voiceId).
  rewrite Hv, orb_true_r. reflexivity.
Qed.

Lemma setVoiceChannel_makes_destroyable_witness :
  exists w1 w2,
    setVoiceChannel "stage" disconnected_world = (Return tt, w1)
    /\ KazagumoPlayer.state (player w1) = CONNECTING
    /\ KazagumoPlayer.voiceId (player w1) = Some "stage"
    /\ trace w1 = trace disconnected_world
                  ++ [VoiceSend (KazagumoPlayer.guildId (player disconnected_world))
                        (Some "stage") false (KazagumoPlayer.deaf (player disconnected_world));
                      Emit (Debug ("Player "
                                   +:+ KazagumoPlayer.guildId (player disconnected_world)
                                   +:+ " moved to voice channel " +:+ "stage"))]
    /\ connect w1 = (Throw (KazagumoError 1 "Player is already connected"), w1)
    /\ destroy w1 = (Return tt, w2)
    /\ KazagumoPlayer.state (player w2) = DESTROYED.
Proof.
  apply (setVoiceChannel_makes_destroyable "stage" disconnected_world); discriminate.
Defined.

(** X23. A successful [destroy] removes this guild's entry from the registry
    and no other, and it leaves the queue ([current], [previous] and the
    pending tracks), the tracks themselves and the session as they were. *)
Theorem destroy_spares_queue_and_others (w : World) :
  KazagumoPlayer.state (player w) <> DESTROYING ->
  KazagumoPlayer.state (player w) <> DESTROYED ->
  KazagumoPlayer.state (player w) <> DISCONNECTED ->
  truthy_string (KazagumoPlayer.voiceId (player w)) = true ->
  exists w1,
    destroy w = (Return tt, w1)
    /\ (forall g, g <> KazagumoPlayer.guildId (player w) -> players w1 !! g = players w !! g)
    /\ players w1 !! KazagumoPlayer.guildId (player w) = None
    /\ KazagumoPlayer.queue (player w1) = KazagumoPlayer.queue (player w)
    /\ tracks w1 = tracks w
    /\ kazagumo w1 = kazagumo w.
Proof.
  intros Hing Hed Hdis Hv.
  destruct (destroy_ok w Hing Hed Hdis Hv) as (w1 & Hd & _ & Hq & Ht & Hk & Hps).
  exists w1. split; [exact Hd|]. rewrite Hps.
  split; [intros g Hg; apply lookup_delete_ne; congruence|].
  split; [apply lookup_delete_eq|]. auto.
Qed.

Lemma destroy_spares_queue_and_others_witness :
  exists w1,
    destroy (set_players {["guild" := 0%nat; "other" := 1%nat]} busy_world) = (Return tt, w1)
    /\ players w1 !! "other" = Some 1%nat
    /\ players w1 !! "guild" = None
    /\ KazagumoPlayer.queue (player w1) = KazagumoQueue.mk [1%nat] (Some 0%nat) None.
Proof.
  destruct (destroy_spares_queue_and_others
              (set_players {["guild" := 0%nat; "other" := 1%nat]} busy_world))
    as (w1 & Hd & Ho & Hg & Hq & _); try discriminate; [reflexivity|].
  exists w1. split; [exact Hd|].
  split; [rewrite (Ho "other") by discriminate; reflexivity|].
  split; [exact Hg|]. rewrite Hq. reflexivity.
Defined.

(** ** The life of a player *)

(** X24. Over the whole life of a player (built by the constructor, then
    driven by method calls and notifications in any order), DESTROYED is
    final: once the state is DESTROYED the listeners are gone and the voiceId
    is null, so every notification is dropped with the world unchanged, and
    every method call returns or throws with the state still DESTROYED, the
    voiceId still null, the listeners still detached and the registry as it
    was. *)
Theorem destroyed_is_final (w : World) :
  Reachable w ->
  KazagumoPlayer.state (player w) = DESTROYED ->
  (forall fuel n, notify fuel n w = Some (Return tt, w))
  /\ (forall fuel op, exists c w',
        call (S fuel) op w = Some (c, w')
        /\ Reachable w'
        /\ KazagumoPlayer.state (player w') = DESTROYED
        /\ KazagumoPlayer.voiceId (player w') = None
        /\ listeners w' = false
        /\ players w' = players w).
Proof.
  intros Hr Hd. destruct (reachable_destroyed_inert w Hr Hd) as [Hv Hl]. split.
  - intros fuel n. unfold notify. rewrite Hl. reflexivity.
  - intros fuel op.
    assert (Hcall : exists c w',
              call (S fuel) op w = Some (c, w')
              /\ KazagumoPlayer.state (player w') = DESTROYED
              /\ KazagumoPlayer.voiceId (player w') = None
              /\ listeners w' = false
              /\ players w' = players w).
    { destruct (guarded op) eqn:Hg.
      - rewrite (guarded_call_refused fuel op w Hd Hg). eauto 10.
      - destruct op as [v|s|s|v|t o| |v| | |]; try discriminate Hg; cbn [call]; unfold lift.
        + destruct (pause_keeps_state v w) as [H1 H2].
          assert (H3 : listeners (pause v w).2 = listeners w /\ players (pause v w).2 = players w).
          { unfold pause. destruct v as [|b|s|n|]; try (split; reflexivity).
            run. destruct (_ || _); split; reflexivity. }
          destruct H3 as [H3 H4].
          destruct (pause v w) as [c w']. cbn [snd] in *. exists c, w'.
          repeat split; congruence.
        + destruct (setLoop_keeps_state v w) as [H1 H2].
          assert (H3 : listeners (setLoop v w).2 = listeners w
                       /\ players (setLoop v w).2 = players w).
          { unfold setLoop. destruct v as [|b|s|n|]; try (split; reflexivity).
            - run. destruct (KazagumoPlayer.loop (player w)); split; reflexivity.
            - repeat destruct (String.eqb s _); split; reflexivity. }
          destruct H3 as [H3 H4].
          destruct (setLoop v w) as [c w']. cbn [snd] in *. exists c, w'.
          repeat split; congruence.
        + rewrite disconnect_refused by (right; rewrite Hv; reflexivity). eauto 10. }
    destruct Hcall as (c & w' & Hc & H).
    exists c, w'. split; [exact Hc|]. split; [|exact H].
    exact (reach_call w (S fuel) op c w' Hr Hc).
Qed.

Lemma destroyed_is_final_witness :
  notify 3 (NEnd "FINISHED") destroyed_world = Some (Return tt, destroyed_world)
  /\ exists c w',
       call 1 (OpPause (JsBool false)) destroyed_world = Some (c, w')
       /\ KazagumoPlayer.state (player w') = DESTROYED.
Proof.
  assert (Hr : Reachable destroyed_world).
  { apply (reach_call fresh_world 0 OpDestroy (Return tt) destroyed_world).
    - apply reach_new.
    - reflexivity. }
  destruct (destroyed_is_final destroyed_world Hr eq_refl) as [Hn Hc].
  split; [apply Hn|].
  destruct (Hc 0%nat (OpPause (JsBool false))) as (c & w' & H & _ & Hs & _).
  exists c, w'. split; assumption.
Defined.
